(** * ExplainX: the access-gated command pipeline of [main.py]

    A shallow embedding of the Telegram bot in [src/main.py]: the user
    store (table [users(id, joined)]), the prompt builders, the audit
    logger, the membership check and the five handlers ([start],
    [check_join], [explain], [prompt_refiner], [broadcast]).

    Handlers are functions in a small state-and-trace monad: the state
    is the [users] table, the trace lists every interaction with the
    outside (SQL statements, Telegram API calls, completion calls,
    diagnostic prints) in program order.  What the outside answers is
    read from a [World] record of oracles. *)

From Stdlib Require Import ZArith NArith Ascii String List Lia.
From stdpp Require Import gmap strings list pretty.

Open Scope Z_scope.

(** ** Python strings

    A Python [str] is a sequence of Unicode code points; slicing
    ([answer[:3500]]) counts code points.  A [str] is modelled as a
    [list N] of code points.  The literals of the source are written as
    UTF-8 text and decoded by [utf8]. *)

Abbreviation str := (list N).

Definition cont_bits (a : ascii) : N := N.land (N_of_ascii a) 63.

Fixpoint utf8 (s : string) : str :=
  match s with
  | EmptyString => []
  | String a r =>
    let b := N_of_ascii a in
    if (b <? 128)%N then b :: utf8 r
    else if (b <? 224)%N then
      match r with
      | String a1 r1 => (N.land b 31 * 64 + cont_bits a1)%N :: utf8 r1
      | _ => []
      end
    else if (b <? 240)%N then
      match r with
      | String a1 (String a2 r2) =>
        (N.land b 15 * 4096 + cont_bits a1 * 64 + cont_bits a2)%N :: utf8 r2
      | _ => []
      end
    else
      match r with
      | String a1 (String a2 (String a3 r3)) =>
        (N.land b 7 * 262144 + cont_bits a1 * 4096
         + cont_bits a2 * 64 + cont_bits a3)%N :: utf8 r3
      | _ => []
      end
  end.

Arguments utf8 : simpl never.

(** The newline and the double-quote character, which the literals
    below splice in where the source has its escapes for them. *)
Definition nl : str := [10%N].
Definition dquote : str := [34%N].

(** [sep.join(parts)] *)
Fixpoint py_join (sep : str) (parts : list str) : str :=
  match parts with
  | [] => []
  | [p] => p
  | p :: rest => p ++ sep ++ py_join sep rest
  end.

(** [s.startswith(prefix)] *)
Fixpoint startswith (s prefix : str) : bool :=
  match prefix, s with
  | [], _ => true
  | _ :: _, [] => false
  | p :: prefix', c :: s' => (p =? c)%N && startswith s' prefix'
  end.

(** [str.isspace] on one code point: the characters Python's
    [split()] and [strip()] without arguments treat as whitespace. *)
Definition is_space (c : N) : bool :=
  ((9 <=? c) && (c <=? 13) || (28 <=? c) && (c <=? 32)
   || (c =? 133) || (c =? 160) || (c =? 5760)
   || (8192 <=? c) && (c <=? 8202)
   || (c =? 8232) || (c =? 8233) || (c =? 8239) || (c =? 8287)
   || (c =? 12288))%N.

Fixpoint lstrip_by (p : N -> bool) (s : str) : str :=
  match s with
  | [] => []
  | c :: r => if p c then lstrip_by p r else s
  end.

Definition strip_by (p : N -> bool) (s : str) : str :=
  rev (lstrip_by p (rev (lstrip_by p s))).

(** [s.strip()] *)
Definition py_strip (s : str) : str := strip_by is_space s.

(** [s.strip(chars)] *)
Definition py_strip_chars (chars s : str) : str :=
  strip_by (fun c => bool_decide (c ∈ chars)) s.

(** [s.split()]: the maximal runs of non-whitespace characters.  [cur]
    is the current run, reversed. *)
Fixpoint split_go (cur : str) (s : str) : list str :=
  match s with
  | [] => match cur with [] => [] | _ => [rev cur] end
  | c :: r =>
    if is_space c then
      match cur with
      | [] => split_go [] r
      | _ => rev cur :: split_go [] r
      end
    else split_go (c :: cur) r
  end.

Definition py_split (s : str) : list str := split_go [] s.

(** [str(n)] for an integer, as an f-string renders it. *)
Definition str_of_Z (n : Z) : str := utf8 (pretty n).
Definition str_of_nat (n : nat) : str := utf8 (pretty n).

(** [int(s)] on the decimal subset: surrounding whitespace, an optional
    sign, one or more ASCII digits.  [None] stands for [ValueError] and,
    outside that subset, for the inputs Python accepts besides
    (underscores between digits, other Unicode decimal digits). *)
Definition digit_val (c : N) : option Z :=
  if ((48 <=? c) && (c <=? 57))%N then Some (Z.of_N c - 48) else None.

Fixpoint digits_go (acc : Z) (s : str) : option Z :=
  match s with
  | [] => Some acc
  | c :: r =>
    match digit_val c with
    | Some d => digits_go (acc * 10 + d) r
    | None => None
    end
  end.

Definition py_int (s : str) : option Z :=
  match py_strip s with
  | [] => None
  | c :: r =>
    if (c =? 45)%N then
      match r with [] => None | _ => Z.opp <$> digits_go 0 r end
    else if (c =? 43)%N then
      match r with [] => None | _ => digits_go 0 r end
    else digits_go 0 (c :: r)
  end.

(** ** Configuration (lines 13-19)

    [LOG_CHANNEL] and [ADMIN_ID] are read with
    [int(os.environ.get(KEY, "0"))]; [REQUIRED_CHANNEL] is the raw
    environment value. *)

Record Config := {
  REQUIRED_CHANNEL : str;
  LOG_CHANNEL : Z;
  ADMIN_ID : Z
}.

(** [int(os.environ.get(key, "0"))] *)
Definition env_int (env : gmap string (list N)) (key : string) : option Z :=
  py_int (default (utf8 "0") (env !! key)).

(** The module-level configuration.  [None] stands for a start-up that
    does not yield a configuration of this type: [int] raising on a
    malformed number, or [REQUIRED_CHANNEL] unset (the module then
    loads with [None] there, and the handlers raise when they build the
    join prompt, which calls [.strip] on it). *)
Definition load_config (env : gmap string (list N)) : option Config :=
  ch ← env !! "REQUIRED_CHANNEL"%string;
  lc ← env_int env "LOG_CHANNEL";
  ad ← env_int env "ADMIN_ID";
  Some {| REQUIRED_CHANNEL := ch; LOG_CHANNEL := lc; ADMIN_ID := ad |}.

Definition EXPLAIN_MODEL : str := utf8 "gpt-3.5-turbo".
Definition PROMPT_MODEL : str := utf8 "gpt-3.5-turbo".

(** ** Updates, the outside world and the trace *)

(** [update.effective_user] / [query.from_user]: the id and what the
    library's [mention_html()] renders for the user. *)
Record User := {
  user_id : Z;
  mention_html : str
}.

(** What a handler reads of an update that is a new message sent by a
    user: the user, [update.message.text] ([None] when the message has
    no text) and [context.args] (the words after the command; empty for
    a plain text message, where the library leaves [context.args]
    unset).  Updates without a sender or without [update.message]
    (channel posts, edited messages), on which the handlers fail with
    an uncaught [AttributeError], are outside this type. *)
Record Update := {
  effective_user : User;
  message_text : option str;
  args : list str
}.

(** The update the library hands to a [CommandHandler]: [context.args]
    is [text.split()[1:]]. *)
Definition command_update (u : User) (text : str) : Update :=
  {| effective_user := u; message_text := Some text;
     args := tail (py_split text) |}.

(** The update the [MessageHandler] for plain text hands over. *)
Definition text_update (u : User) (text : str) : Update :=
  {| effective_user := u; message_text := Some text; args := [] |}.

Inductive Button :=
| UrlButton (text url : str)
| CallbackButton (text callback_data : str).

Abbreviation Keyboard := (list (list Button)).

(** Outcome of [bot.get_chat_member(REQUIRED_CHANNEL, user_id)]. *)
Inductive ChatMemberResult :=
| MemberStatus (status : str)
| RaisesForbidden (e : str)
| RaisesBadRequest (e : str)
| RaisesOther (e : str).

(** Outcome of [client.chat.completions.create(...)] followed by
    reading [response.choices[0].message.content]: the content, or the
    text of the exception raised on the way. *)
Inductive Completion :=
| Content (text : str)
| Raises (e : str).

(** The answers of the outside.  [send_message_error chat text mode] is
    [None] when [context.bot.send_message] returns and [Some e] when it
    raises an exception whose text is [e].  [reply_error text mode] is
    the same for [update.message.reply_text(text, parse_mode=mode)]; it
    is consulted where the source catches the refusal, that is for the
    reply inside the [try] blocks of [explain] and [prompt_refiner]. *)
Record World := {
  get_chat_member : str -> Z -> ChatMemberResult;
  chat_completion : str -> str -> str -> Completion;
  send_message_error : Z -> str -> option str -> option str;
  reply_error : str -> option str -> option str
}.

Inductive Event :=
| SqlAddUser (id : Z)
| SqlUpdateJoin (id : Z)
| SqlIsJoined (id : Z)
| SqlGetAllUsers
| GetChatMember (chat : str) (id : Z)
| ChatCompletion (model system prompt : str)
| ReplyText (text : str) (parse_mode : option str)
            (reply_markup : option Keyboard) (disable_preview : bool)
| EditText (text : str)
| AnswerQuery (text : str) (show_alert : bool)
| SendMessage (chat_id : Z) (text : str) (parse_mode : option str)
| Print (text : str).

(** ** The handler monad: the [users] table threaded through, the trace
    appended to.  Every call is recorded when it is made, whether it
    then returns or raises.  The failures the source catches itself
    (membership query, completion call, the reply inside a [try], log
    send, broadcast delivery) come from the [World]; SQL statements and
    the replies outside a [try], whose failure the handlers do not
    catch, are taken to complete. *)

Definition M (A : Type) : Type :=
  gmap Z bool -> A * gmap Z bool * list Event.

Definition ret {A} (a : A) : M A := fun st => (a, st, []).

Definition bind {A B} (m : M A) (k : A -> M B) : M B :=
  fun st =>
    let '(a, st1, t1) := m st in
    let '(b, st2, t2) := k a st1 in
    (b, st2, t1 ++ t2).

Declare Scope bot_scope.
Delimit Scope bot_scope with bot.
Notation "x <~ m ;; k" := (bind m (fun x => k))
  (at level 100, m at next level, right associativity) : bot_scope.
Notation "m ;;; k" := (bind m (fun _ => k))
  (at level 100, right associativity) : bot_scope.
Open Scope bot_scope.

Definition emit (e : Event) : M unit := fun st => (tt, st, [e]).

Definition final_store {A} (r : A * gmap Z bool * list Event) : gmap Z bool :=
  snd (fst r).
Definition trace_of {A} (r : A * gmap Z bool * list Event) : list Event :=
  snd r.
Definition value_of {A} (r : A * gmap Z bool * list Event) : A :=
  fst (fst r).

(** ** Database utils (lines 43-66) *)

(** [INSERT INTO users (id, joined) VALUES ($1, FALSE)
     ON CONFLICT (id) DO NOTHING] *)
Definition insert_or_ignore (id : Z) (st : gmap Z bool) : gmap Z bool :=
  match st !! id with
  | Some _ => st
  | None => <[id := false]> st
  end.

(** [UPDATE users SET joined = TRUE WHERE id=$1]: rewrites the row with
    that id when there is one, touches nothing otherwise. *)
Definition set_joined (id : Z) (st : gmap Z bool) : gmap Z bool :=
  alter (fun _ => true) id st.

Definition add_user (id : Z) : M unit :=
  fun st => (tt, insert_or_ignore id st, [SqlAddUser id]).

Definition update_join (id : Z) : M unit :=
  fun st => (tt, set_joined id st, [SqlUpdateJoin id]).

(** [row["joined"] if row else False] *)
Definition is_joined (id : Z) : M bool :=
  fun st => (default false (st !! id), st, [SqlIsJoined id]).

(** [SELECT id FROM users].  The statement has no [ORDER BY]: the
    order of the result is the table's own and is not specified; the
    order of [map_to_list] stands for it, and nothing proved about the
    list depends on it. *)
Definition get_all_users : M (list Z) :=
  fun st => (fst <$> map_to_list st, st, [SqlGetAllUsers]).

(** ** Prompt builders (lines 69-109) *)

Definition build_explain_prompt (user_text : str) : str :=
  nl ++
  utf8 "You are an expert explainer. Explain the following text at three levels:" ++ nl ++
  nl ++
  utf8 "🔹 Basic — like for a 5-year-old  " ++ nl ++
  utf8 "🔸 Intermediate — like for a college student  " ++ nl ++
  utf8 "🔶 Advanced — for professionals  " ++ nl ++
  nl ++
  utf8 "Format:" ++ nl ++
  nl ++
  utf8 "🔹 *Basic explanation:*  " ++ nl ++
  utf8 "<text>" ++ nl ++
  nl ++
  utf8 "🔸 *Intermediate explanation:*  " ++ nl ++
  utf8 "<text>" ++ nl ++
  nl ++
  utf8 "🔶 *Advanced explanation:*  " ++ nl ++
  utf8 "<text>" ++ nl ++
  nl ++
  utf8 "Text:" ++ nl ++
  dquote ++ dquote ++ dquote ++ user_text ++ dquote ++ dquote ++ dquote.

Definition build_prompt_refiner (user_text : str) : str :=
  nl ++
  utf8 "You are a world-class prompt engineer." ++ nl ++
  nl ++
  utf8 "Task: Take the raw prompt and transform it into a highly detailed, structured, and optimized prompt." ++ nl ++
  nl ++
  utf8 "Follow the rules:" ++ nl ++
  utf8 "1. Clarify the intent behind the original prompt." ++ nl ++
  utf8 "2. Expand with context, constraints, and details." ++ nl ++
  utf8 "3. Assign a clear role (expert teacher, senior developer, designer, etc.)." ++ nl ++
  utf8 "4. Give step-by-step instructions with measurable outcomes." ++ nl ++
  utf8 "5. Make it professional, unambiguous, and future-proof." ++ nl ++
  nl ++
  utf8 "⚠️ Output format (strictly follow, no extra text, no duplication):" ++ nl ++
  nl ++
  utf8 "- **Original Prompt**: " ++ user_text ++ nl ++
  nl ++
  utf8 "- **Refined Prompt**: <ultra high-level upgraded version>" ++ nl.

(** ** Utils and handlers (lines 112-274), for a configuration and a
    world *)

Section Handlers.

Variable cfg : Config.
Variable w : World.

Definition reply_text (text : str) (parse_mode : option str)
    (reply_markup : option Keyboard) (disable_preview : bool) : M unit :=
  emit (ReplyText text parse_mode reply_markup disable_preview).

Definition Markdown : option str := Some (utf8 "Markdown").
Definition HTML : option str := Some (utf8 "HTML").

(** The text of the record [send_log] builds: [user_text] whole,
    [answer[:3500]]. *)
Definition log_msg (user : option User) (command user_text answer : str) : str :=
  utf8 "👤 User: "
    ++ match user with
       | Some u => mention_html u
       | None => utf8 "Unknown"
       end ++ nl ++
  utf8 "🆔 ID: `"
    ++ match user with
       | Some u => str_of_Z (user_id u)
       | None => utf8 "N/A"
       end ++ utf8 "`" ++ nl ++
  utf8 "💬 Command: `" ++ command ++ utf8 "`" ++ nl ++
  utf8 "📥 Input:" ++ nl ++ user_text ++ nl ++ nl ++
  utf8 "📤 Output:" ++ nl ++ take 3500 answer.

Definition send_log (user : option User) (command user_text answer : str)
    : M unit :=
  if LOG_CHANNEL cfg =? 0 then ret tt
  else
    let msg := log_msg user command user_text answer in
    emit (SendMessage (LOG_CHANNEL cfg) msg HTML);;;
    match send_message_error w (LOG_CHANNEL cfg) msg HTML with
    | None => ret tt
    | Some e => emit (Print (utf8 "⚠️ Log send error: " ++ e))
    end.

Definition member_statuses : list str :=
  [utf8 "member"; utf8 "administrator"; utf8 "creator"].

Definition is_member (id : Z) : M bool :=
  emit (GetChatMember (REQUIRED_CHANNEL cfg) id);;;
  match get_chat_member w (REQUIRED_CHANNEL cfg) id with
  | MemberStatus status => ret (bool_decide (status ∈ member_statuses))
  | RaisesForbidden _ =>
    emit (Print (utf8 "⚠️ Bot is not admin in REQUIRED_CHANNEL!"));;;
    ret false
  | RaisesBadRequest e =>
    emit (Print (utf8 "⚠️ Membership check bad request: " ++ e));;;
    ret false
  | RaisesOther e =>
    emit (Print (utf8 "⚠️ Membership check error: " ++ e));;;
    ret false
  end.

(** The two-button keyboard and the reply every gate shows on denial. *)
Definition join_keyboard : Keyboard :=
  [ [UrlButton (utf8 "👉 Join Channel")
       (utf8 "https://t.me/" ++ py_strip_chars (utf8 "@") (REQUIRED_CHANNEL cfg))];
    [CallbackButton (utf8 "✅ I've Joined") (utf8 "check_join")] ].

Definition join_text : str :=
  utf8 "⚠️ Please join our channel to use the bot.".

Definition join_prompt : M unit :=
  reply_text join_text None (Some join_keyboard) false.

Definition welcome_text : str :=
  utf8 "👋 *Welcome back!*" ++ nl ++ nl ++
  utf8 "I can break down complex text or help you craft better prompts." ++ nl ++ nl ++
  utf8 "📌 *Commands:*" ++ nl ++
  utf8 "• `/explain <text>` → Multi-level explanations." ++ nl ++
  utf8 "• `/prompt <idea>` → Get polished prompt." ++ nl ++
  nl ++ utf8 "Made with ❤️ by [Swayam](https://t.me/regnis)".

Definition start (update : Update) : M unit :=
  let uid := user_id (effective_user update) in
  add_user uid;;;
  joined <~ is_joined uid;;
  if joined then reply_text welcome_text Markdown None true
  else join_prompt.

Definition thanks_text : str :=
  utf8 "✅ Thanks for joining! Type /start again 🎉".

Definition check_join (from_user : User) : M unit :=
  let uid := user_id from_user in
  member <~ is_member uid;;
  if member then
    update_join uid;;;
    emit (EditText thanks_text)
  else
    emit (AnswerQuery (utf8 "❌ You haven't joined yet!") true).

Definition error_text (e : str) : str := utf8 "⚠️ Error: " ++ e.

Definition explain_usage : str := utf8 "❗ Usage: `/explain your_text_here`".
Definition prompt_usage : str := utf8 "❗ Usage: `/prompt your_idea_here`".
Definition unauthorized_text : str := utf8 "❌ You are not authorized.".

(** The [user_text] of [explain] (line 189): the joined arguments, or
    the message text when there are none. *)
Definition explain_user_text (update : Update) : str :=
  match args update with
  | [] => default [] (message_text update)
  | _ => py_join (utf8 " ") (args update)
  end.

(** The [user_text] of [prompt_refiner] (line 225). *)
Definition prompt_user_text (update : Update) : str :=
  py_join (utf8 " ") (args update).

Definition explain_system : str :=
  utf8 "You explain at multiple levels clearly.".

Definition prompt_system : str :=
  utf8 "You are a world-class prompt engineer. Always return in the strict format.".

(** [explain] past its gate (lines 188-209).  The [try] block holds
    the completion call, the reply with the answer and [send_log]; an
    exception of the first two is caught and answered with the error
    text, which is then what [send_log] records. *)
Definition explain_body (update : Update) : M unit :=
  let user := effective_user update in
  let user_text := explain_user_text update in
  if bool_decide (user_text = []) || startswith user_text (utf8 "/explain") then
    reply_text explain_usage Markdown None false
  else
    let prompt := build_explain_prompt user_text in
    let system := explain_system in
    emit (ChatCompletion EXPLAIN_MODEL system prompt);;;
    match chat_completion w EXPLAIN_MODEL system prompt with
    | Content answer =>
      reply_text answer Markdown None false;;;
      match reply_error w answer Markdown with
      | None => send_log (Some user) (utf8 "explain") user_text answer
      | Some e =>
        let err := error_text e in
        reply_text err None None false;;;
        send_log (Some user) (utf8 "explain") user_text err
      end
    | Raises e =>
      let err := error_text e in
      reply_text err None None false;;;
      send_log (Some user) (utf8 "explain") user_text err
    end.

Definition explain (update : Update) : M unit :=
  let uid := user_id (effective_user update) in
  joined <~ is_joined uid;;
  if negb joined then join_prompt
  else explain_body update.

(** [prompt_refiner] past its gate (lines 224-245), with the same
    [try] block as [explain]. *)
Definition prompt_refiner_body (update : Update) : M unit :=
  let user := effective_user update in
  let user_text := prompt_user_text update in
  if bool_decide (user_text = []) then
    reply_text prompt_usage Markdown None false
  else
    let prompt := build_prompt_refiner user_text in
    let system := prompt_system in
    emit (ChatCompletion PROMPT_MODEL system prompt);;;
    match chat_completion w PROMPT_MODEL system prompt with
    | Content answer =>
      let refined := py_strip answer in
      reply_text refined Markdown None false;;;
      match reply_error w refined Markdown with
      | None => send_log (Some user) (utf8 "prompt") user_text refined
      | Some e =>
        let err := error_text e in
        reply_text err None None false;;;
        send_log (Some user) (utf8 "prompt") user_text err
      end
    | Raises e =>
      let err := error_text e in
      reply_text err None None false;;;
      send_log (Some user) (utf8 "prompt") user_text err
    end.

Definition prompt_refiner (update : Update) : M unit :=
  let uid := user_id (effective_user update) in
  joined <~ is_joined uid;;
  if negb joined then join_prompt
  else prompt_refiner_body update.

(** The [for uid in users] loop of [broadcast] with its two counters. *)
Fixpoint broadcast_loop (message : str) (users : list Z) (sent failed : nat)
    : M (nat * nat) :=
  match users with
  | [] => ret (sent, failed)
  | uid :: rest =>
    emit (SendMessage uid message None);;;
    match send_message_error w uid message None with
    | None => broadcast_loop message rest (S sent) failed
    | Some _ => broadcast_loop message rest sent (S failed)
    end
  end.

Definition broadcast_report (sent failed : nat) : str :=
  utf8 "📢 Broadcast complete!" ++ nl ++
  utf8 "✅ Sent: " ++ str_of_nat sent ++ nl ++
  utf8 "⚠️ Failed: " ++ str_of_nat failed.

Definition broadcast (update : Update) : M unit :=
  let uid := user_id (effective_user update) in
  if negb (uid =? ADMIN_ID cfg) then
    reply_text unauthorized_text None None false
  else
    match args update with
    | [] =>
      reply_text (utf8 "❗ Usage: `/broadcast your_message`") Markdown None false
    | _ =>
      let message := py_join (utf8 " ") (args update) in
      users <~ get_all_users;;
      counts <~ broadcast_loop message users 0 0;;
      reply_text (broadcast_report (fst counts) (snd counts)) None None false
    end.

(** [error_handler] (lines 268-274); [error] is the text of
    [context.error]. *)
Definition error_handler (error : str) : M unit :=
  emit (Print (utf8 "⚠️ Update error: " ++ error));;;
  if LOG_CHANNEL cfg =? 0 then ret tt
  else emit (SendMessage (LOG_CHANNEL cfg) (error_text error) None).

(** The handler table of [main] (lines 282-287): which handler an
    inbound update reaches. *)
Inductive Request :=
| StartCommand (update : Update)
| ExplainCommand (update : Update)
| PromptCommand (update : Update)
| BroadcastCommand (update : Update)
| CheckJoinCallback (from_user : User)
| PlainText (update : Update).

Definition handle (r : Request) : M unit :=
  match r with
  | StartCommand u => start u
  | ExplainCommand u => explain u
  | PromptCommand u => prompt_refiner u
  | BroadcastCommand u => broadcast u
  | CheckJoinCallback q => check_join q
  | PlainText u => explain u
  end.

End Handlers.

(** ** Runs of several operations *)

(** The four statements the program ever sends to the [users] table. *)
Inductive StoreOp :=
| OpAddUser (id : Z)
| OpUpdateJoin (id : Z)
| OpIsJoined (id : Z)
| OpGetAllUsers.

Definition store_op (op : StoreOp) : M unit :=
  match op with
  | OpAddUser id => add_user id
  | OpUpdateJoin id => update_join id
  | OpIsJoined id => (_ <~ is_joined id;; ret tt)
  | OpGetAllUsers => (_ <~ get_all_users;; ret tt)
  end.

Definition run_ops (ops : list StoreOp) (st : gmap Z bool) : gmap Z bool :=
  fold_left (fun s op => final_store (store_op op s)) ops st.

(** A sequence of inbound updates, each handled in the world as it is
    when the update arrives. *)
Definition run_requests (cfg : Config) (steps : list (World * Request))
    (st : gmap Z bool) : gmap Z bool :=
  fold_left (fun s step => final_store (handle cfg (fst step) (snd step) s))
    steps st.

Definition requester (r : Request) : Z :=
  match r with
  | StartCommand u | ExplainCommand u | PromptCommand u
  | BroadcastCommand u | PlainText u => user_id (effective_user u)
  | CheckJoinCallback q => user_id q
  end.

(** [st'] keeps every record of [st] and every [joined = TRUE]. *)
Definition keeps (st st' : gmap Z bool) : Prop :=
  forall id : Z,
    (st !! id = Some true -> st' !! id = Some true)
    /\ (is_Some (st !! id) -> is_Some (st' !! id)).

(** Whether the direct delivery of [message] to [uid] goes through. *)
Definition delivers (w : World) (message : str) (uid : Z) : bool :=
  match send_message_error w uid message None with
  | None => true
  | Some _ => false
  end.

(** ** Reading traces *)

(** The events of one [send_log] call: nothing when [LOG_CHANNEL] is 0,
    else the send to the log channel and, when that send raises, the
    diagnostic print. *)
Definition audit_events (cfg : Config) (w : World) (user : option User)
    (command user_text answer : str) : list Event :=
  trace_of (send_log cfg w user command user_text answer ∅).

(** The reply of a gate that denies. *)
Definition join_prompt_event (cfg : Config) : Event :=
  ReplyText join_text None (Some (join_keyboard cfg)) false.

(** A send in the mode only [send_log] uses. *)
Definition is_log_send (e : Event) : bool :=
  match e with
  | SendMessage _ _ mode => bool_decide (mode = HTML)
  | _ => false
  end.

Definition is_completion_call (e : Event) : bool :=
  match e with ChatCompletion _ _ _ => true | _ => false end.

Definition is_membership_query (e : Event) : bool :=
  match e with GetChatMember _ _ => true | _ => false end.

Definition is_print (e : Event) : bool :=
  match e with Print _ => true | _ => false end.

Definition is_add_user (e : Event) : bool :=
  match e with SqlAddUser _ => true | _ => false end.

(** The events a handler can produce past its gate: no membership
    query, no SQL statement, no reply carrying a keyboard. *)
Definition pipeline_event (e : Event) : bool :=
  match e with
  | ChatCompletion _ _ _ | ReplyText _ _ None _ | SendMessage _ _ _
  | Print _ => true
  | _ => false
  end.

(** What the user who sent the update sees. *)
Definition is_reply (e : Event) : bool :=
  match e with
  | ReplyText _ _ _ _ | EditText _ | AnswerQuery _ _ => true
  | _ => false
  end.

Definition with_log_channel (cfg : Config) (c : Z) : Config :=
  {| REQUIRED_CHANNEL := REQUIRED_CHANNEL cfg;
     LOG_CHANNEL := c;
     ADMIN_ID := ADMIN_ID cfg |}.

(** ** Concrete configurations, worlds and users for the examples *)

Definition cfg_demo : Config :=
  {| REQUIRED_CHANNEL := utf8 "@explainx"; LOG_CHANNEL := -1001; ADMIN_ID := 1 |}.

Definition cfg_nolog : Config := with_log_channel cfg_demo 0.

(** Everybody is a channel member, completions succeed, user 3 has
    blocked the bot. *)
Definition world_ok : World :=
  {| get_chat_member := fun _ _ => MemberStatus (utf8 "member");
     chat_completion := fun _ _ _ => Content (utf8 "T");
     send_message_error := fun chat _ _ =>
       if chat =? 3 then Some (utf8 "Forbidden: bot was blocked by the user")
       else None;
     reply_error := fun _ _ => None |}.


(** Nobody is a channel member. *)
Definition world_out : World :=
  {| get_chat_member := fun _ _ => MemberStatus (utf8 "left");
     chat_completion := fun _ _ _ => Content (utf8 "T");
     send_message_error := fun _ _ _ => None;
     reply_error := fun _ _ => None |}.

Definition alice : User := {| user_id := 7; mention_html := utf8 "alice" |}.
Definition admin : User := {| user_id := 1; mention_html := utf8 "root" |}.

(** ** Further readings of requests, traces and worlds *)

(** The requests that pass through the access gate. *)
Definition is_gated (r : Request) : bool :=
  match r with
  | ExplainCommand _ | PromptCommand _ | PlainText _ => true
  | _ => false
  end.

Definition count_events (p : Event -> bool) (t : list Event) : nat :=
  length (List.filter p t).

Definition is_store_write (e : Event) : bool :=
  match e with SqlAddUser _ | SqlUpdateJoin _ => true | _ => false end.

(** Two worlds that answer alike except, possibly, on sends in the
    mode of [send_log]. *)
Definition agree_outside_log (w w' : World) : Prop :=
  (forall chat id, get_chat_member w chat id = get_chat_member w' chat id)
  /\ (forall model system prompt,
        chat_completion w model system prompt
        = chat_completion w' model system prompt)
  /\ (forall chat text,
        send_message_error w chat text None
        = send_message_error w' chat text None)
  /\ (forall text mode, reply_error w text mode = reply_error w' text mode).

(** A world in which every send to the log channel raises. *)
Definition world_log_down : World :=
  {| get_chat_member := fun _ _ => MemberStatus (utf8 "member");
     chat_completion := fun _ _ _ => Content (utf8 "T");
     send_message_error := fun chat _ mode =>
       match mode with
       | Some _ => Some (utf8 "Chat not found")
       | None =>
         if chat =? 3 then Some (utf8 "Forbidden: bot was blocked by the user")
         else None
       end;
     reply_error := fun _ _ => None |}.

(** As [world_ok], but the platform refuses every reply sent in a
    parse mode. *)
Definition world_markdown_refused : World :=
  {| get_chat_member := fun _ _ => MemberStatus (utf8 "member");
     chat_completion := fun _ _ _ => Content (utf8 "T");
     send_message_error := fun _ _ _ => None;
     reply_error := fun _ mode =>
       match mode with
       | Some _ => Some (utf8 "Can't parse entities")
       | None => None
       end |}.

(** * Properties *)

(** ** The string helpers on the source's own literals *)

Example utf8_warning : utf8 "⚠️ E" = [9888; 65039; 32; 69]%N.
Proof. reflexivity. Qed.

Example utf8_four_bytes : utf8 "📤" = [128228%N].
Proof. reflexivity. Qed.

Example py_split_words :
  py_split (utf8 "  /prompt   a b ") = [utf8 "/prompt"; utf8 "a"; utf8 "b"].
Proof. reflexivity. Qed.

Example py_int_default : py_int (utf8 "0") = Some 0.
Proof. reflexivity. Qed.

Example py_int_negative : py_int (utf8 "-1001234") = Some (-1001234).
Proof. reflexivity. Qed.

Example str_of_nat_12 : str_of_nat 12 = utf8 "12".
Proof. vm_compute. reflexivity. Qed.

(** ** The user store *)

Section StoreFacts.

Implicit Types (st : gmap Z bool) (id : Z).

Lemma insert_or_ignore_existing st id :
  is_Some (st !! id) -> insert_or_ignore id st = st.
Proof. intros [b Hb]. unfold insert_or_ignore. by rewrite Hb. Qed.

Lemma insert_or_ignore_lookup st id :
  insert_or_ignore id st !! id = Some (default false (st !! id)).
Proof.
  unfold insert_or_ignore. destruct (st !! id) as [b|] eqn:E; simpl.
  - exact E.
  - apply lookup_insert_eq.
Qed.

Lemma insert_or_ignore_other st id j :
  id <> j -> insert_or_ignore id st !! j = st !! j.
Proof.
  intros Hne. unfold insert_or_ignore.
  destruct (st !! id); [done|]. by rewrite lookup_insert_ne.
Qed.

Lemma set_joined_lookup st id :
  set_joined id st !! id = (fun _ => true) <$> st !! id.
Proof. apply lookup_alter_eq. Qed.

Lemma set_joined_other st id j :
  id <> j -> set_joined id st !! j = st !! j.
Proof. intros. unfold set_joined. by rewrite lookup_alter_ne. Qed.

Lemma set_joined_absent st id :
  st !! id = None -> set_joined id st = st.
Proof. intros H. apply alter_id. intros x Hx. congruence. Qed.

Lemma set_joined_present st id :
  is_Some (st !! id) -> set_joined id st !! id = Some true.
Proof. intros [b Hb]. rewrite set_joined_lookup, Hb. done. Qed.

Lemma set_joined_idem st id :
  set_joined id (set_joined id st) = set_joined id st.
Proof.
  apply map_eq. intros j. destruct (decide (id = j)) as [->|Hne].
  - rewrite !set_joined_lookup. by destruct (st !! j).
  - by rewrite !set_joined_other.
Qed.

Lemma keeps_refl st : keeps st st.
Proof. intros id. auto. Qed.

Lemma keeps_trans st1 st2 st3 : keeps st1 st2 -> keeps st2 st3 -> keeps st1 st3.
Proof.
  intros H12 H23 id. destruct (H12 id), (H23 id). auto.
Qed.

Lemma keeps_insert_or_ignore st id : keeps st (insert_or_ignore id st).
Proof.
  intros j. destruct (decide (id = j)) as [->|Hne].
  - rewrite insert_or_ignore_lookup. split.
    + intros ->. done.
    + eauto.
  - rewrite insert_or_ignore_other by done. auto.
Qed.

Lemma keeps_set_joined st id : keeps st (set_joined id st).
Proof.
  intros j. destruct (decide (id = j)) as [->|Hne].
  - rewrite set_joined_lookup. split.
    + intros ->. done.
    + intros [b ->]. eauto.
  - rewrite set_joined_other by done. auto.
Qed.

End StoreFacts.

(** ** What each handler does to the store *)

Section HandlerStore.

Variable cfg : Config.
Variable w : World.
Implicit Types (st : gmap Z bool) (u : Update).

Lemma send_log_store user command user_text answer st :
  final_store (send_log cfg w user command user_text answer st) = st.
Proof.
  unfold send_log. destruct (LOG_CHANNEL cfg =? 0); [done|].
  unfold bind, emit, final_store; simpl.
  by destruct (send_message_error w _ _ _).
Qed.

Lemma start_store u st :
  final_store (start cfg u st)
  = insert_or_ignore (user_id (effective_user u)) st.
Proof.
  unfold start, bind, add_user, is_joined, final_store; simpl.
  by destruct (default false _).
Qed.

Lemma is_member_store id st :
  final_store (is_member cfg w id st) = st.
Proof.
  unfold is_member, bind, emit, final_store; simpl.
  by destruct (get_chat_member w _ _).
Qed.

Lemma is_member_value id st st' :
  value_of (is_member cfg w id st) = value_of (is_member cfg w id st').
Proof.
  unfold is_member, bind, emit, value_of; simpl.
  by destruct (get_chat_member w _ _).
Qed.

Lemma check_join_store q st :
  final_store (check_join cfg w q st)
  = if value_of (is_member cfg w (user_id q) st)
    then set_joined (user_id q) st else st.
Proof.
  unfold check_join, is_member, bind, emit, update_join, final_store, value_of;
    simpl.
  destruct (get_chat_member w _ _); simpl; try done.
  by destruct (bool_decide _).
Qed.

Lemma explain_body_store u st :
  final_store (explain_body cfg w u st) = st.
Proof.
  unfold explain_body.
  destruct (_ || _); [done|].
  unfold bind, emit, reply_text, final_store; simpl.
  destruct (chat_completion w _ _ _); simpl;
    try destruct (reply_error w _ _); simpl;
    match goal with
    | |- context [send_log ?c ?w ?a ?b ?d ?e ?s] =>
      pose proof (send_log_store a b d e s) as Hs;
      destruct (send_log c w a b d e s) as [[? ?] ?]; exact Hs
    end.
Qed.

Lemma prompt_refiner_body_store u st :
  final_store (prompt_refiner_body cfg w u st) = st.
Proof.
  unfold prompt_refiner_body.
  destruct (bool_decide _); [done|].
  unfold bind, emit, reply_text, final_store; simpl.
  destruct (chat_completion w _ _ _); simpl;
    try destruct (reply_error w _ _); simpl;
    match goal with
    | |- context [send_log ?c ?w ?a ?b ?d ?e ?s] =>
      pose proof (send_log_store a b d e s) as Hs;
      destruct (send_log c w a b d e s) as [[? ?] ?]; exact Hs
    end.
Qed.

Lemma explain_store u st : final_store (explain cfg w u st) = st.
Proof.
  unfold explain, bind, is_joined; simpl.
  destruct (default false _); simpl.
  - pose proof (explain_body_store u st) as Hs.
    destruct (explain_body cfg w u st) as [[? ?] ?]. exact Hs.
  - done.
Qed.

Lemma prompt_refiner_store u st : final_store (prompt_refiner cfg w u st) = st.
Proof.
  unfold prompt_refiner, bind, is_joined; simpl.
  destruct (default false _); simpl.
  - pose proof (prompt_refiner_body_store u st) as Hs.
    destruct (prompt_refiner_body cfg w u st) as [[? ?] ?]. exact Hs.
  - done.
Qed.

End HandlerStore.

(** ** Broadcast fan-out *)

Section Broadcast.

Variable cfg : Config.
Variable w : World.

Lemma broadcast_loop_run message users sent failed st :
  broadcast_loop w message users sent failed st
  = ((sent + length (List.filter (delivers w message) users),
      failed + length (List.filter (fun uid => negb (delivers w message uid)) users))%nat,
     st,
     (fun uid => SendMessage uid message None) <$> users).
Proof.
  revert sent failed.
  induction users as [|uid rest IH]; intros sent failed; simpl.
  - unfold ret. by rewrite !Nat.add_0_r.
  - unfold bind, emit.
    destruct (send_message_error w uid message None) eqn:E.
    + assert (delivers w message uid = false) as -> by (unfold delivers; by rewrite E).
      rewrite IH. simpl. repeat f_equal; lia.
    + assert (delivers w message uid = true) as -> by (unfold delivers; by rewrite E).
      rewrite IH. simpl. repeat f_equal; lia.
Qed.

Lemma delivered_plus_failed message (users : list Z) :
  (length (List.filter (delivers w message) users)
   + length (List.filter (fun uid => negb (delivers w message uid)) users))%nat
  = length users.
Proof.
  induction users as [|uid rest IH]; [done|].
  simpl. destruct (delivers w message uid); simpl; lia.
Qed.

Lemma broadcast_store u st : final_store (broadcast cfg w u st) = st.
Proof.
  unfold broadcast. destruct (negb _); [done|].
  destruct (args u) as [|a l]; [done|].
  unfold bind, get_all_users, reply_text, emit, final_store.
  rewrite broadcast_loop_run. done.
Qed.

End Broadcast.

(** ** Run equations of the logger and of the gated handlers *)

Section Runs.

Variable cfg : Config.
Variable w : World.
Implicit Types (st : gmap Z bool) (u : Update).

Lemma send_log_run user command user_text answer st :
  send_log cfg w user command user_text answer st
  = (tt, st, audit_events cfg w user command user_text answer).
Proof.
  unfold audit_events, send_log. destruct (LOG_CHANNEL cfg =? 0); [done|].
  unfold bind, emit, trace_of; simpl.
  by destruct (send_message_error w _ _ _).
Qed.

Lemma audit_events_off user command user_text answer :
  LOG_CHANNEL cfg = 0 ->
  audit_events cfg w user command user_text answer = [].
Proof. intros H. unfold audit_events, send_log. by rewrite H. Qed.

Lemma audit_events_on user command user_text answer :
  LOG_CHANNEL cfg <> 0 ->
  audit_events cfg w user command user_text answer
  = SendMessage (LOG_CHANNEL cfg)
      (log_msg user command user_text answer) HTML
    :: match send_message_error w (LOG_CHANNEL cfg)
               (log_msg user command user_text answer) HTML with
       | None => []
       | Some e => [Print (utf8 "⚠️ Log send error: " ++ e)]
       end.
Proof.
  intros H. apply Z.eqb_neq in H. unfold audit_events, send_log. rewrite H.
  unfold bind, emit, trace_of; simpl.
  by destruct (send_message_error w _ _ _).
Qed.

Lemma explain_body_usage u st :
  explain_user_text u = [] \/ startswith (explain_user_text u) (utf8 "/explain") = true ->
  explain_body cfg w u st
  = (tt, st, [ReplyText explain_usage Markdown None false]).
Proof.
  intros H. unfold explain_body.
  destruct (bool_decide (explain_user_text u = [])) eqn:E; [done|].
  destruct H as [H|H].
  - apply bool_decide_eq_false in E. done.
  - rewrite H. done.
Qed.

Lemma explain_body_call u st :
  explain_user_text u <> [] ->
  startswith (explain_user_text u) (utf8 "/explain") = false ->
  explain_body cfg w u st
  = (tt, st,
     ChatCompletion EXPLAIN_MODEL explain_system
       (build_explain_prompt (explain_user_text u))
     :: match chat_completion w EXPLAIN_MODEL explain_system
                (build_explain_prompt (explain_user_text u)) with
        | Content answer =>
          ReplyText answer Markdown None false
          :: match reply_error w answer Markdown with
             | None =>
               audit_events cfg w (Some (effective_user u)) (utf8 "explain")
                 (explain_user_text u) answer
             | Some e =>
               ReplyText (error_text e) None None false
               :: audit_events cfg w (Some (effective_user u)) (utf8 "explain")
                    (explain_user_text u) (error_text e)
             end
        | Raises e =>
          ReplyText (error_text e) None None false
          :: audit_events cfg w (Some (effective_user u)) (utf8 "explain")
               (explain_user_text u) (error_text e)
        end).
Proof.
  intros Hne Hsw. unfold explain_body.
  rewrite bool_decide_eq_false_2 by done. rewrite Hsw. simpl.
  unfold bind, emit, reply_text.
  destruct (chat_completion w _ _ _); simpl;
    try destruct (reply_error w _ _); simpl; by rewrite send_log_run.
Qed.

Lemma prompt_refiner_body_usage u st :
  prompt_user_text u = [] ->
  prompt_refiner_body cfg w u st
  = (tt, st, [ReplyText prompt_usage Markdown None false]).
Proof.
  intros H. unfold prompt_refiner_body.
  by rewrite bool_decide_eq_true_2.
Qed.

Lemma prompt_refiner_body_call u st :
  prompt_user_text u <> [] ->
  prompt_refiner_body cfg w u st
  = (tt, st,
     ChatCompletion PROMPT_MODEL prompt_system
       (build_prompt_refiner (prompt_user_text u))
     :: match chat_completion w PROMPT_MODEL prompt_system
                (build_prompt_refiner (prompt_user_text u)) with
        | Content answer =>
          ReplyText (py_strip answer) Markdown None false
          :: match reply_error w (py_strip answer) Markdown with
             | None =>
               audit_events cfg w (Some (effective_user u)) (utf8 "prompt")
                 (prompt_user_text u) (py_strip answer)
             | Some e =>
               ReplyText (error_text e) None None false
               :: audit_events cfg w (Some (effective_user u)) (utf8 "prompt")
                    (prompt_user_text u) (error_text e)
             end
        | Raises e =>
          ReplyText (error_text e) None None false
          :: audit_events cfg w (Some (effective_user u)) (utf8 "prompt")
               (prompt_user_text u) (error_text e)
        end).
Proof.
  intros Hne. unfold prompt_refiner_body.
  rewrite bool_decide_eq_false_2 by done.
  unfold bind, emit, reply_text.
  destruct (chat_completion w _ _ _); simpl;
    try destruct (reply_error w _ _); simpl; by rewrite send_log_run.
Qed.

Lemma body_run_eta (r : unit * gmap Z bool * list Event) st :
  final_store r = st -> r = (tt, st, trace_of r).
Proof. destruct r as [[[] s] t]. unfold final_store, trace_of. simpl. by intros ->. Qed.

Lemma explain_denied u st :
  default false (st !! user_id (effective_user u)) = false ->
  explain cfg w u st
  = (tt, st, [SqlIsJoined (user_id (effective_user u)); join_prompt_event cfg]).
Proof.
  intros H. unfold explain, bind, is_joined. rewrite H. done.
Qed.

Lemma explain_allowed u st :
  default false (st !! user_id (effective_user u)) = true ->
  explain cfg w u st
  = (tt, st, SqlIsJoined (user_id (effective_user u))
             :: trace_of (explain_body cfg w u st)).
Proof.
  intros H. unfold explain, bind, is_joined. rewrite H. simpl.
  rewrite (body_run_eta (explain_body cfg w u st) st)
    by apply explain_body_store.
  done.
Qed.

Lemma prompt_refiner_denied u st :
  default false (st !! user_id (effective_user u)) = false ->
  prompt_refiner cfg w u st
  = (tt, st, [SqlIsJoined (user_id (effective_user u)); join_prompt_event cfg]).
Proof.
  intros H. unfold prompt_refiner, bind, is_joined. rewrite H. done.
Qed.

Lemma prompt_refiner_allowed u st :
  default false (st !! user_id (effective_user u)) = true ->
  prompt_refiner cfg w u st
  = (tt, st, SqlIsJoined (user_id (effective_user u))
             :: trace_of (prompt_refiner_body cfg w u st)).
Proof.
  intros H. unfold prompt_refiner, bind, is_joined. rewrite H. simpl.
  rewrite (body_run_eta (prompt_refiner_body cfg w u st) st)
    by apply prompt_refiner_body_store.
  done.
Qed.

Lemma audit_events_pipeline user command user_text answer :
  Forall (fun e => pipeline_event e = true)
    (audit_events cfg w user command user_text answer).
Proof.
  destruct (decide (LOG_CHANNEL cfg = 0)) as [H|H].
  - rewrite audit_events_off by done. constructor.
  - rewrite audit_events_on by done.
    destruct (send_message_error w _ _ _); repeat constructor.
Qed.

Lemma explain_body_pipeline u st :
  Forall (fun e => pipeline_event e = true) (trace_of (explain_body cfg w u st)).
Proof.
  destruct (decide (explain_user_text u = [])) as [H|H].
  { rewrite explain_body_usage by auto. repeat constructor. }
  destruct (startswith (explain_user_text u) (utf8 "/explain")) eqn:E.
  { rewrite explain_body_usage by auto. repeat constructor. }
  rewrite explain_body_call by done. unfold trace_of; simpl.
  constructor; [done|].
  destruct (chat_completion w _ _ _); (constructor; [done|]);
    try destruct (reply_error w _ _); try (constructor; [done|]);
    apply audit_events_pipeline.
Qed.

Lemma prompt_refiner_body_pipeline u st :
  Forall (fun e => pipeline_event e = true)
    (trace_of (prompt_refiner_body cfg w u st)).
Proof.
  destruct (decide (prompt_user_text u = [])) as [H|H].
  { rewrite prompt_refiner_body_usage by auto. repeat constructor. }
  rewrite prompt_refiner_body_call by done. unfold trace_of; simpl.
  constructor; [done|].
  destruct (chat_completion w _ _ _); (constructor; [done|]);
    try destruct (reply_error w _ _); try (constructor; [done|]);
    apply audit_events_pipeline.
Qed.

End Runs.

(** ** Whitespace-only arguments *)

Lemma split_go_spaces (cur ws : str) :
  Forall (fun c => is_space c = true) ws ->
  split_go cur ws = match cur with [] => [] | _ => [rev cur] end.
Proof.
  intros H. revert cur. induction H as [|c r Hc _ IH]; intros cur; simpl.
  - done.
  - rewrite Hc. rewrite (IH []). by destruct cur.
Qed.

Lemma split_go_one_word (cur cmd ws : str) :
  Forall (fun c => is_space c = false) cmd ->
  Forall (fun c => is_space c = true) ws ->
  tail (split_go cur (cmd ++ ws)) = [].
Proof.
  intros Hcmd Hws. revert cur.
  induction Hcmd as [|c r Hc _ IH]; intros cur; simpl.
  - rewrite split_go_spaces by done. by destruct cur.
  - rewrite Hc. apply IH.
Qed.

Lemma command_args_blank (user : User) (cmd ws : str) :
  Forall (fun c => is_space c = false) cmd ->
  Forall (fun c => is_space c = true) ws ->
  args (command_update user (cmd ++ ws)) = [].
Proof. intros. simpl. unfold py_split. by apply split_go_one_word. Qed.

(** ** The specified properties, C1 to C10 *)

(** C8.  A [/broadcast] whose issuer is not [ADMIN_ID] is answered with
    the not-authorized reply and does nothing else: the run is exactly
    that one reply, so the user list is not fetched, no message is
    delivered to anybody and the store is the one it started from. *)
Theorem broadcast_non_admin (cfg : Config) (w : World) (u : Update)
    (st : gmap Z bool) :
  user_id (effective_user u) <> ADMIN_ID cfg ->
  broadcast cfg w u st
  = (tt, st, [ReplyText unauthorized_text None None false]).
Proof.
  intros H. unfold broadcast.
  apply Z.eqb_neq in H. rewrite H. done.
Qed.

Lemma broadcast_non_admin_witness :
  broadcast cfg_demo world_ok (command_update alice (utf8 "/broadcast hi"))
    (<[2 := false]> (<[7 := true]> ∅))
  = (tt, <[2 := false]> (<[7 := true]> ∅),
     [ReplyText unauthorized_text None None false]).
Proof. apply broadcast_non_admin. vm_compute. discriminate. Defined.

(** C5.  A [/broadcast] by the administrator with a non-empty message
    fetches the user list once, attempts exactly one delivery per
    stored identifier (the list, in whatever order the table gave it,
    has no duplicates and holds exactly the identifiers of the store),
    goes on after a failed delivery, and ends with one reply whose text
    is the broadcast-complete line, the sent line with [sent] in
    decimal and the failed line with [failed] in decimal, where [sent]
    counts the deliveries that returned, [failed] those that raised,
    and [sent + failed] is the number of stored users. *)
Theorem broadcast_fan_out (cfg : Config) (w : World) (u : Update)
    (st : gmap Z bool) :
  user_id (effective_user u) = ADMIN_ID cfg ->
  py_join (utf8 " ") (args u) <> [] ->
  exists (users : list Z) (sent failed : nat),
    NoDup users
    /\ (forall id, id ∈ users <-> is_Some (st !! id))
    /\ length users = size st
    /\ sent = length (List.filter
                 (fun id =>
                    match send_message_error w id
                            (py_join (utf8 " ") (args u)) None with
                    | None => true
                    | Some _ => false
                    end) users)
    /\ failed = length (List.filter
                   (fun id =>
                      match send_message_error w id
                              (py_join (utf8 " ") (args u)) None with
                      | None => false
                      | Some _ => true
                      end) users)
    /\ (sent + failed)%nat = size st
    /\ broadcast cfg w u st
       = (tt, st,
          SqlGetAllUsers
          :: ((fun id => SendMessage id (py_join (utf8 " ") (args u)) None)
                <$> users)
          ++ [ReplyText
                (utf8 "📢 Broadcast complete!" ++ [10%N]
                 ++ utf8 "✅ Sent: " ++ utf8 (pretty sent) ++ [10%N]
                 ++ utf8 "⚠️ Failed: " ++ utf8 (pretty failed))
                None None false]).
Proof.
  intros Hadmin Hmsg.
  exists ((map_to_list st).*1),
    (length (List.filter (delivers w (py_join (utf8 " ") (args u)))
               (map_to_list st).*1)),
    (length (List.filter
               (fun id => negb (delivers w (py_join (utf8 " ") (args u)) id))
               (map_to_list st).*1)).
  split; [apply NoDup_fst_map_to_list|].
  split.
  { intros id. rewrite list_elem_of_fmap. split.
    - intros [[k b] [-> Hin]]. apply elem_of_map_to_list in Hin. eauto.
    - intros [b Hb]. exists (id, b). split; [done|].
      by apply elem_of_map_to_list. }
  split; [rewrite length_fmap; apply length_map_to_list|].
  split; [reflexivity|].
  split.
  { f_equal. apply List.filter_ext. intros id. unfold delivers.
    by destruct (send_message_error w id _ None). }
  split.
  { rewrite delivered_plus_failed, length_fmap. apply length_map_to_list. }
  unfold broadcast. rewrite Hadmin, Z.eqb_refl. simpl.
  destruct (args u) as [|a l] eqn:Ea; [done|].
  unfold bind, get_all_users, reply_text, emit.
  rewrite broadcast_loop_run. reflexivity.
Qed.

Lemma broadcast_fan_out_witness :
  exists (users : list Z) (sent failed : nat),
    NoDup users
    /\ (forall id, id ∈ users
          <-> is_Some ((<[2 := false]> (<[3 := true]> (<[7 := true]> (∅ : gmap Z bool)))) !! id))
    /\ length users
       = size (<[2 := false]> (<[3 := true]> (<[7 := true]> (∅ : gmap Z bool))))
    /\ sent = length (List.filter
                 (fun id =>
                    match send_message_error world_ok id
                            (py_join (utf8 " ")
                               (args (command_update admin (utf8 "/broadcast hi"))))
                            None with
                    | None => true
                    | Some _ => false
                    end) users)
    /\ failed = length (List.filter
                   (fun id =>
                      match send_message_error world_ok id
                              (py_join (utf8 " ")
                                 (args (command_update admin (utf8 "/broadcast hi"))))
                              None with
                      | None => false
                      | Some _ => true
                      end) users)
    /\ (sent + failed)%nat
       = size (<[2 := false]> (<[3 := true]> (<[7 := true]> (∅ : gmap Z bool))))
    /\ broadcast cfg_demo world_ok (command_update admin (utf8 "/broadcast hi"))
         (<[2 := false]> (<[3 := true]> (<[7 := true]> ∅)))
       = (tt, <[2 := false]> (<[3 := true]> (<[7 := true]> ∅)),
          SqlGetAllUsers
          :: ((fun id => SendMessage id
                 (py_join (utf8 " ") (args (command_update admin (utf8 "/broadcast hi")))) None)
                <$> users)
          ++ [ReplyText
                (utf8 "📢 Broadcast complete!" ++ [10%N]
                 ++ utf8 "✅ Sent: " ++ utf8 (pretty sent) ++ [10%N]
                 ++ utf8 "⚠️ Failed: " ++ utf8 (pretty failed))
                None None false]).
Proof.
  apply (broadcast_fan_out cfg_demo world_ok
           (command_update admin (utf8 "/broadcast hi"))).
  - reflexivity.
  - vm_compute. discriminate.
Defined.

(** A registered user whom the verifier reports as member ends
    [check_join] with [joined = TRUE]. *)
Lemma check_join_registered (cfg : Config) (w : World) (q : User)
    (st : gmap Z bool) :
  is_Some (st !! user_id q) ->
  value_of (is_member cfg w (user_id q) st) = true ->
  final_store (check_join cfg w q st) !! user_id q = Some true.
Proof.
  intros Hsome Hmem. rewrite check_join_store, Hmem.
  by apply set_joined_present.
Qed.

Lemma check_join_member_run (cfg : Config) (w : World) (q : User)
    (st : gmap Z bool) :
  value_of (is_member cfg w (user_id q) st) = true ->
  check_join cfg w q st
  = (tt, set_joined (user_id q) st,
     [GetChatMember (REQUIRED_CHANNEL cfg) (user_id q);
      SqlUpdateJoin (user_id q); EditText thanks_text]).
Proof.
  unfold check_join, is_member, bind, emit, update_join, value_of; simpl.
  destruct (get_chat_member w _ _); simpl; try discriminate.
  destruct (bool_decide _); simpl; [done|discriminate].
Qed.

(** C3.  The gate of [/explain] (and of a plain text message) and of
    [/prompt] decides on the stored flag alone, whatever the platform
    would answer about membership: no run of either handler queries the
    platform; with the flag [true] the run is the flag read followed by
    the pipeline past the gate, and the join prompt is not shown; with
    the flag [false] the run is the flag read and the join prompt and
    nothing more, also for a user who is a channel member, and only
    [check_join] with the verifier reporting membership turns the flag
    so that the next request passes. *)
Theorem gate_follows_stored_flag (cfg : Config) (w : World) (u : Update)
    (st : gmap Z bool) (b : bool) :
  st !! user_id (effective_user u) = Some b ->
  explain cfg w u st
  = (tt, st,
     SqlIsJoined (user_id (effective_user u))
     :: if b then trace_of (explain_body cfg w u st)
        else [join_prompt_event cfg])
  /\ prompt_refiner cfg w u st
     = (tt, st,
        SqlIsJoined (user_id (effective_user u))
        :: if b then trace_of (prompt_refiner_body cfg w u st)
           else [join_prompt_event cfg])
  /\ Forall (fun e => is_membership_query e = false)
       (trace_of (explain cfg w u st))
  /\ Forall (fun e => is_membership_query e = false)
       (trace_of (prompt_refiner cfg w u st))
  /\ (join_prompt_event cfg ∈ trace_of (explain cfg w u st) <-> b = false)
  /\ (join_prompt_event cfg ∈ trace_of (prompt_refiner cfg w u st) <-> b = false)
  /\ (b = false ->
      value_of (is_member cfg w (user_id (effective_user u)) st) = true ->
      final_store (check_join cfg w (effective_user u) st)
        !! user_id (effective_user u) = Some true).
Proof.
  intros Hb.
  assert (Hpipe : forall t : list Event,
            Forall (fun e => pipeline_event e = true) t ->
            Forall (fun e => is_membership_query e = false) t
            /\ join_prompt_event cfg ∉ t).
  { intros t Ht. split.
    - eapply Forall_impl; [exact Ht|]. intros [] ?; simpl in *; congruence.
    - intros Hin. rewrite Forall_forall in Ht. apply Ht in Hin. discriminate. }
  destruct b.
  - rewrite explain_allowed, prompt_refiner_allowed by (by rewrite Hb).
    pose proof (Hpipe _ (explain_body_pipeline cfg w u st)) as He.
    pose proof (Hpipe _ (prompt_refiner_body_pipeline cfg w u st)) as Hp.
    destruct He as [He1 He2], Hp as [Hp1 Hp2].
    unfold trace_of at 1 3 5 7; simpl.
    repeat split; try done.
    + by constructor.
    + by constructor.
    + intros [Heq|Hin]%elem_of_cons; [discriminate|done].
    + intros [Heq|Hin]%elem_of_cons; [discriminate|done].
  - rewrite explain_denied, prompt_refiner_denied by (by rewrite Hb).
    unfold trace_of; simpl.
    repeat split; try done.
    + repeat constructor.
    + repeat constructor.
    + intros _. apply list_elem_of_further, list_elem_of_here.
    + intros _. apply list_elem_of_further, list_elem_of_here.
    + intros _ Hmem. apply check_join_registered; [eauto|done].
Qed.

Lemma gate_follows_stored_flag_witness :
  explain cfg_demo world_ok (command_update alice (utf8 "/explain hello"))
    (<[7 := false]> ∅)
  = (tt, <[7 := false]> ∅, [SqlIsJoined 7; join_prompt_event cfg_demo])
  /\ prompt_refiner cfg_demo world_out (command_update alice (utf8 "/prompt idea"))
       (<[7 := true]> ∅)
     = (tt, <[7 := true]> ∅,
        SqlIsJoined 7
        :: trace_of (prompt_refiner_body cfg_demo world_out
                       (command_update alice (utf8 "/prompt idea"))
                       (<[7 := true]> ∅))).
Proof.
  split.
  - exact (proj1 (gate_follows_stored_flag cfg_demo world_ok
             (command_update alice (utf8 "/explain hello"))
             (<[7 := false]> ∅) false eq_refl)).
  - exact (proj1 (proj2 (gate_follows_stored_flag cfg_demo world_out
             (command_update alice (utf8 "/prompt idea"))
             (<[7 := true]> ∅) true eq_refl))).
Defined.

(** C7.  [/prompt] from an allowed user with nothing after the command,
    or with whitespace only, is answered with the usage message and
    nothing else happens: the run is the flag read and that reply, so
    no completion call is made and no audit record is sent.  [cmd] is
    the command word as typed and [ws] what follows it. *)
Theorem prompt_blank_argument (cfg : Config) (w : World) (user : User)
    (cmd ws : str) (st : gmap Z bool) :
  st !! user_id user = Some true ->
  Forall (fun c => is_space c = false) cmd ->
  Forall (fun c => is_space c = true) ws ->
  prompt_refiner cfg w (command_update user (cmd ++ ws)) st
  = (tt, st,
     [SqlIsJoined (user_id user); ReplyText prompt_usage Markdown None false])
  /\ Forall (fun e => is_completion_call e = false /\ is_log_send e = false)
       (trace_of (prompt_refiner cfg w (command_update user (cmd ++ ws)) st)).
Proof.
  intros Hj Hcmd Hws.
  assert (Hrun : prompt_refiner cfg w (command_update user (cmd ++ ws)) st
    = (tt, st,
       [SqlIsJoined (user_id user); ReplyText prompt_usage Markdown None false])).
  { rewrite prompt_refiner_allowed by (simpl; by rewrite Hj).
    rewrite prompt_refiner_body_usage; [done|].
    unfold prompt_user_text. by rewrite command_args_blank. }
  split; [exact Hrun|].
  rewrite Hrun. unfold trace_of; simpl. repeat constructor.
Qed.

Lemma prompt_blank_argument_witness :
  prompt_refiner cfg_demo world_ok
    (command_update alice (utf8 "/prompt" ++ utf8 "   ")) (<[7 := true]> ∅)
  = (tt, <[7 := true]> ∅,
     [SqlIsJoined 7; ReplyText prompt_usage Markdown None false]).
Proof.
  refine (proj1 (prompt_blank_argument cfg_demo world_ok alice
                   (utf8 "/prompt") (utf8 "   ") (<[7 := true]> ∅) _ _ _)).
  - reflexivity.
  - vm_compute. repeat constructor.
  - vm_compute. repeat constructor.
Defined.

(** C1, as stated, fails: a first-time user whose first update is
    [/explain hello] is shown the join prompt, and afterwards the store
    still has no record for that user; the handler never sent the
    insert. *)
Lemma gated_command_registers_nobody :
  (∅ : gmap Z bool) !! user_id alice = None
  /\ explain cfg_demo world_ok (command_update alice (utf8 "/explain hello")) ∅
     = (tt, ∅, [SqlIsJoined 7; join_prompt_event cfg_demo])
  /\ ~ is_Some (final_store
                  (handle cfg_demo world_ok
                     (ExplainCommand (command_update alice (utf8 "/explain hello")))
                     ∅) !! user_id alice).
Proof.
  split; [done|]. split; [reflexivity|].
  intros [b Hb]. vm_compute in Hb. discriminate.
Qed.

(** C1, amended.  [/start] first sends the insert-or-ignore for the
    user and then reads the flag, so after [/start] the user has a
    record: a new one with [joined = FALSE] for a first-time user, the
    old one untouched otherwise.  The gated handlers ([/explain], plain
    text, [/prompt]) send no insert and leave the store as it is: they
    begin with the flag read, which takes a missing record as not
    joined, so a user without a record is shown the join prompt. *)
Theorem registration_on_start (cfg : Config) (w : World) (u : Update)
    (st : gmap Z bool) :
  (exists reply,
     start cfg u st
     = (tt, insert_or_ignore (user_id (effective_user u)) st,
        [SqlAddUser (user_id (effective_user u));
         SqlIsJoined (user_id (effective_user u)); reply]))
  /\ is_Some (final_store (start cfg u st) !! user_id (effective_user u))
  /\ (st !! user_id (effective_user u) = None ->
      final_store (start cfg u st) !! user_id (effective_user u) = Some false)
  /\ (is_Some (st !! user_id (effective_user u)) ->
      final_store (start cfg u st) = st)
  /\ (forall r, r = ExplainCommand u \/ r = PlainText u \/ r = PromptCommand u ->
      final_store (handle cfg w r st) = st
      /\ head (trace_of (handle cfg w r st))
         = Some (SqlIsJoined (user_id (effective_user u)))
      /\ Forall (fun e => is_add_user e = false) (trace_of (handle cfg w r st))
      /\ (st !! user_id (effective_user u) = None ->
          handle cfg w r st
          = (tt, st, [SqlIsJoined (user_id (effective_user u));
                      join_prompt_event cfg]))).
Proof.
  split.
  { unfold start, bind, add_user, is_joined; simpl.
    destruct (default false _); eexists; reflexivity. }
  rewrite start_store.
  split; [rewrite insert_or_ignore_lookup; eauto|].
  split; [intros H; by rewrite insert_or_ignore_lookup, H|].
  split; [apply insert_or_ignore_existing|].
  assert (Hpipe : forall t : list Event,
            Forall (fun e => pipeline_event e = true) t ->
            Forall (fun e => is_add_user e = false) t).
  { intros t Ht. eapply Forall_impl; [exact Ht|].
    intros [] ?; simpl in *; congruence. }
  assert (He : final_store (explain cfg w u st) = st
    /\ head (trace_of (explain cfg w u st))
       = Some (SqlIsJoined (user_id (effective_user u)))
    /\ Forall (fun e => is_add_user e = false) (trace_of (explain cfg w u st))
    /\ (st !! user_id (effective_user u) = None ->
        explain cfg w u st
        = (tt, st, [SqlIsJoined (user_id (effective_user u));
                    join_prompt_event cfg]))).
  { split; [apply explain_store|].
    destruct (default false (st !! user_id (effective_user u))) eqn:E.
    - rewrite explain_allowed by done. unfold trace_of at 1 3; simpl.
      split; [done|]. split.
      + constructor; [done|]. apply Hpipe, explain_body_pipeline.
      + intros H. rewrite H in E. discriminate.
    - rewrite explain_denied by done. unfold trace_of; simpl.
      split; [done|]. split; [repeat constructor|done]. }
  intros r [Hr | [Hr | Hr]]; subst r; simpl; try exact He.
  split; [apply prompt_refiner_store|].
  destruct (default false (st !! user_id (effective_user u))) eqn:E.
  - rewrite prompt_refiner_allowed by done. unfold trace_of at 1 3; simpl.
    split; [done|]. split.
    + constructor; [done|]. apply Hpipe, prompt_refiner_body_pipeline.
    + intros H. rewrite H in E. discriminate.
  - rewrite prompt_refiner_denied by done. unfold trace_of; simpl.
    split; [done|]. split; [repeat constructor|done].
Qed.

Lemma registration_on_start_witness :
  final_store (start cfg_demo (command_update alice (utf8 "/start")) ∅)
    !! user_id (effective_user (command_update alice (utf8 "/start")))
  = Some false.
Proof.
  refine (proj1 (proj2 (proj2 (registration_on_start cfg_demo world_ok
            (command_update alice (utf8 "/start")) ∅))) _).
  reflexivity.
Defined.

(** C2 fails on the code for a user without a record.  Alice's first
    update is [/explain hello]: she is shown the join prompt and no
    record is made.  She is a channel member and presses the button:
    [check_join] gets the verifier's yes, sends the update (which
    matches no row) and edits the message to the thanks text, yet the
    store has no record for her and her next [/explain] is denied
    again. *)
Theorem check_join_without_record :
  final_store (explain cfg_demo world_ok
                 (command_update alice (utf8 "/explain hello")) ∅) = ∅
  /\ value_of (is_member cfg_demo world_ok (user_id alice) ∅) = true
  /\ check_join cfg_demo world_ok alice ∅
     = (tt, ∅, [GetChatMember (utf8 "@explainx") 7; SqlUpdateJoin 7;
                EditText thanks_text])
  /\ final_store (check_join cfg_demo world_ok alice ∅) !! user_id alice
     <> Some true
  /\ explain cfg_demo world_ok (command_update alice (utf8 "/explain hello"))
       (final_store (check_join cfg_demo world_ok alice ∅))
     = (tt, ∅, [SqlIsJoined 7; join_prompt_event cfg_demo]).
Proof.
  split; [reflexivity|]. split; [reflexivity|]. split; [reflexivity|].
  split; [|reflexivity].
  vm_compute. discriminate.
Qed.

(** The same for every configuration, world and store: without a record
    the update changes nothing. *)
Lemma check_join_unregistered (cfg : Config) (w : World) (q : User)
    (st : gmap Z bool) :
  st !! user_id q = None ->
  final_store (check_join cfg w q st) = st.
Proof.
  intros H. rewrite check_join_store.
  destruct (value_of _); [|done]. by apply set_joined_absent.
Qed.

(** C9.  When the verifier reports the user as member, a second
    [check_join] leaves the store as the first one left it, and runs
    along the same branch as the first: membership query, update, edit
    to the thanks text, with no diagnostic print; a flag the first run
    left [true] is [true] after the second. *)
Theorem check_join_twice (cfg : Config) (w : World) (q : User)
    (st : gmap Z bool) :
  value_of (is_member cfg w (user_id q) st) = true ->
  final_store (check_join cfg w q (final_store (check_join cfg w q st)))
  = final_store (check_join cfg w q st)
  /\ trace_of (check_join cfg w q (final_store (check_join cfg w q st)))
     = [GetChatMember (REQUIRED_CHANNEL cfg) (user_id q);
        SqlUpdateJoin (user_id q); EditText thanks_text]
  /\ (final_store (check_join cfg w q st) !! user_id q = Some true ->
      final_store (check_join cfg w q (final_store (check_join cfg w q st)))
        !! user_id q = Some true).
Proof.
  intros Hmem.
  rewrite (check_join_member_run cfg w q st Hmem).
  unfold final_store, trace_of; cbn [fst snd].
  assert (Hmem' : value_of (is_member cfg w (user_id q)
                              (set_joined (user_id q) st)) = true).
  { by rewrite (is_member_value cfg w _ _ st). }
  rewrite (check_join_member_run cfg w q _ Hmem'). cbn [fst snd].
  rewrite set_joined_idem. done.
Qed.

Lemma check_join_twice_witness :
  final_store (check_join cfg_demo world_ok alice
                 (final_store (check_join cfg_demo world_ok alice
                                 (<[7 := false]> ∅))))
  !! 7 = Some true.
Proof.
  refine (proj2 (proj2 (check_join_twice cfg_demo world_ok alice
                          (<[7 := false]> ∅) _)) _).
  - reflexivity.
  - reflexivity.
Defined.

(** ** Monotonicity of the store *)

Lemma store_op_keeps (op : StoreOp) (st : gmap Z bool) :
  keeps st (final_store (store_op op st)).
Proof.
  destruct op; unfold final_store; simpl.
  - apply keeps_insert_or_ignore.
  - apply keeps_set_joined.
  - apply keeps_refl.
  - apply keeps_refl.
Qed.

Lemma handle_keeps (cfg : Config) (w : World) (r : Request) (st : gmap Z bool) :
  keeps st (final_store (handle cfg w r st)).
Proof.
  destruct r; simpl.
  - rewrite start_store. apply keeps_insert_or_ignore.
  - rewrite explain_store. apply keeps_refl.
  - rewrite prompt_refiner_store. apply keeps_refl.
  - rewrite broadcast_store. apply keeps_refl.
  - rewrite check_join_store. destruct (value_of _).
    + apply keeps_set_joined.
    + apply keeps_refl.
  - rewrite explain_store. apply keeps_refl.
Qed.

Lemma run_ops_keeps (ops : list StoreOp) (st : gmap Z bool) :
  keeps st (run_ops ops st).
Proof.
  revert st. induction ops as [|op ops IH]; intros st; simpl.
  - apply keeps_refl.
  - eapply keeps_trans; [apply store_op_keeps|apply IH].
Qed.

Lemma run_requests_keeps (cfg : Config) (steps : list (World * Request))
    (st : gmap Z bool) :
  keeps st (run_requests cfg steps st).
Proof.
  revert st. induction steps as [|[w r] steps IH]; intros st; simpl.
  - apply keeps_refl.
  - eapply keeps_trans; [apply handle_keeps|apply IH].
Qed.

(** C6.  Over any sequence of the four statements the program sends to
    the table, and over any sequence of inbound updates (each in the
    world of its moment), a record that exists still exists at the end,
    and a flag that was [true] is [true] at the end; registering a user
    who has a record changes nothing, the flag included. *)
Theorem joined_monotone_records_kept (cfg : Config) (ops : list StoreOp)
    (steps : list (World * Request)) (st : gmap Z bool) (id : Z) (b : bool) :
  st !! id = Some b ->
  (exists b', run_ops ops st !! id = Some b' /\ (b = true -> b' = true))
  /\ (exists b', run_requests cfg steps st !! id = Some b'
                 /\ (b = true -> b' = true))
  /\ final_store (add_user id st) = st
  /\ final_store (add_user id st) !! id = Some b.
Proof.
  intros Hb.
  assert (Hk : forall st', keeps st st' ->
            exists b', st' !! id = Some b' /\ (b = true -> b' = true)).
  { intros st' Hk. destruct (Hk id) as [Htrue Hsome].
    destruct Hsome as [b' Hb']; [eauto|].
    exists b'. split; [done|]. intros ->.
    specialize (Htrue Hb). congruence. }
  split; [apply Hk, run_ops_keeps|].
  split; [apply Hk, run_requests_keeps|].
  assert (final_store (add_user id st) = st) as ->.
  { unfold final_store; simpl. apply insert_or_ignore_existing. eauto. }
  done.
Qed.

Lemma joined_monotone_records_kept_witness :
  exists b',
    run_requests cfg_demo
      [(world_out, CheckJoinCallback alice);
       (world_ok, StartCommand (command_update alice (utf8 "/start")));
       (world_ok, BroadcastCommand (command_update admin (utf8 "/broadcast hi")))]
      (<[7 := true]> ∅) !! 7 = Some b'
    /\ (true = true -> b' = true).
Proof.
  refine (proj1 (proj2 (joined_monotone_records_kept cfg_demo []
            [(world_out, CheckJoinCallback alice);
             (world_ok, StartCommand (command_update alice (utf8 "/start")));
             (world_ok, BroadcastCommand (command_update admin (utf8 "/broadcast hi")))]
            (<[7 := true]> ∅) 7 true _))).
  reflexivity.
Defined.

(** ** The audit record *)

(** The record embeds the input whole and the output cut after 3500
    characters; what precedes the input depends on neither. *)
Lemma log_msg_shape (user : option User) (command : str) :
  exists header : str,
    forall user_text answer : str,
      log_msg user command user_text answer
      = header ++ user_text ++ nl ++ nl ++ utf8 "📤 Output:" ++ nl
        ++ take 3500 answer.
Proof.
  eexists. intros user_text answer. unfold log_msg.
  repeat rewrite <- (app_assoc _ _ _).
  rewrite !(app_assoc _ _ (user_text ++ _)).
  reflexivity.
Qed.

Lemma audit_events_on_shape (cfg : Config) (w : World) (user : option User)
    (command user_text answer : str) :
  LOG_CHANNEL cfg <> 0 ->
  exists diag,
    audit_events cfg w user command user_text answer
    = SendMessage (LOG_CHANNEL cfg) (log_msg user command user_text answer) HTML
      :: diag
    /\ Forall (fun e => is_print e = true) diag.
Proof.
  intros H. rewrite audit_events_on by done.
  destruct (send_message_error w _ _ _); eexists; split; try reflexivity;
    repeat constructor.
Qed.




(** ** The log channel set to 0 *)

Section LogChannel.

Variable cfg : Config.
Variable w : World.
Implicit Types (st : gmap Z bool) (u : Update).

Lemma audit_events_replies user command user_text answer :
  List.filter is_reply (audit_events cfg w user command user_text answer) = [].
Proof.
  destruct (decide (LOG_CHANNEL cfg = 0)) as [H|H].
  - by rewrite audit_events_off.
  - rewrite audit_events_on by done. simpl.
    by destruct (send_message_error w _ _ _).
Qed.

Lemma explain_body_replies u st :
  List.filter is_reply (trace_of (explain_body cfg w u st))
  = List.filter is_reply
      (trace_of (explain_body (with_log_channel cfg 0) w u st)).
Proof.
  destruct (decide (explain_user_text u = [])) as [H|H].
  { by rewrite !explain_body_usage by auto. }
  destruct (startswith (explain_user_text u) (utf8 "/explain")) eqn:E.
  { by rewrite !explain_body_usage by auto. }
  rewrite !explain_body_call by done. unfold trace_of; simpl.
  destruct (chat_completion w _ _ _); simpl;
    try destruct (reply_error w _ _); simpl;
    by rewrite audit_events_replies.
Qed.

Lemma prompt_refiner_body_replies u st :
  List.filter is_reply (trace_of (prompt_refiner_body cfg w u st))
  = List.filter is_reply
      (trace_of (prompt_refiner_body (with_log_channel cfg 0) w u st)).
Proof.
  destruct (decide (prompt_user_text u = [])) as [H|H].
  { by rewrite !prompt_refiner_body_usage by auto. }
  rewrite !prompt_refiner_body_call by done. unfold trace_of; simpl.
  destruct (chat_completion w _ _ _); simpl;
    try destruct (reply_error w _ _); simpl;
    by rewrite audit_events_replies.
Qed.

Lemma handle_replies (r : Request) st :
  List.filter is_reply (trace_of (handle cfg w r st))
  = List.filter is_reply (trace_of (handle (with_log_channel cfg 0) w r st)).
Proof.
  assert (He : forall u,
    List.filter is_reply (trace_of (explain cfg w u st))
    = List.filter is_reply (trace_of (explain (with_log_channel cfg 0) w u st))).
  { intros u. destruct (default false (st !! user_id (effective_user u))) eqn:E.
    - rewrite !explain_allowed by done. unfold trace_of at 1 3; simpl.
      apply explain_body_replies.
    - by rewrite !explain_denied by done. }
  destruct r; simpl; try done.
  destruct (default false (st !! user_id (effective_user update))) eqn:E.
  - rewrite !prompt_refiner_allowed by done. unfold trace_of at 1 3; simpl.
    apply prompt_refiner_body_replies.
  - by rewrite !prompt_refiner_denied by done.
Qed.

Lemma handle_store_log_channel (r : Request) st :
  final_store (handle cfg w r st)
  = final_store (handle (with_log_channel cfg 0) w r st).
Proof.
  destruct r; simpl; try done.
  - by rewrite !explain_store.
  - by rewrite !prompt_refiner_store.
  - by rewrite !explain_store.
Qed.

Lemma explain_body_silent u st :
  LOG_CHANNEL cfg = 0 ->
  Forall (fun e => is_log_send e = false) (trace_of (explain_body cfg w u st)).
Proof.
  intros H0.
  destruct (decide (explain_user_text u = [])) as [H|H].
  { rewrite explain_body_usage by auto. repeat constructor. }
  destruct (startswith (explain_user_text u) (utf8 "/explain")) eqn:E.
  { rewrite explain_body_usage by auto. repeat constructor. }
  rewrite explain_body_call by done. unfold trace_of; simpl.
  destruct (chat_completion w _ _ _); try destruct (reply_error w _ _);
    rewrite audit_events_off by done; repeat constructor.
Qed.

Lemma prompt_refiner_body_silent u st :
  LOG_CHANNEL cfg = 0 ->
  Forall (fun e => is_log_send e = false)
    (trace_of (prompt_refiner_body cfg w u st)).
Proof.
  intros H0.
  destruct (decide (prompt_user_text u = [])) as [H|H].
  { rewrite prompt_refiner_body_usage by auto. repeat constructor. }
  rewrite prompt_refiner_body_call by done. unfold trace_of; simpl.
  destruct (chat_completion w _ _ _); try destruct (reply_error w _ _);
    rewrite audit_events_off by done; repeat constructor.
Qed.

Lemma handle_silent (r : Request) st :
  LOG_CHANNEL cfg = 0 ->
  Forall (fun e => is_log_send e = false) (trace_of (handle cfg w r st)).
Proof.
  intros H0.
  assert (He : forall u,
    Forall (fun e => is_log_send e = false) (trace_of (explain cfg w u st))).
  { intros u. destruct (default false (st !! user_id (effective_user u))) eqn:E.
    - rewrite explain_allowed by done. unfold trace_of at 1; simpl.
      constructor; [done|]. by apply explain_body_silent.
    - rewrite explain_denied by done. repeat constructor. }
  destruct r; simpl; try apply He.
  - unfold start, bind, add_user, is_joined, trace_of; simpl.
    destruct (default false _); repeat constructor.
  - destruct (default false (st !! user_id (effective_user update))) eqn:E.
    + rewrite prompt_refiner_allowed by done. unfold trace_of at 1; simpl.
      constructor; [done|]. by apply prompt_refiner_body_silent.
    + rewrite prompt_refiner_denied by done. repeat constructor.
  - unfold broadcast. destruct (negb _); [repeat constructor|].
    destruct (args update) as [|a l]; [repeat constructor|].
    unfold bind, get_all_users, reply_text, emit.
    rewrite broadcast_loop_run. unfold trace_of; simpl.
    constructor; [done|]. apply Forall_app. split; [|repeat constructor].
    apply Forall_fmap, Forall_forall. intros; done.
  - unfold check_join, is_member, bind, emit, update_join, trace_of; simpl.
    destruct (get_chat_member w _ _); simpl; try repeat constructor.
    destruct (bool_decide _); repeat constructor.
Qed.

End LogChannel.

(** C10.  [LOG_CHANNEL] is 0 when the environment does not set it.
    With [LOG_CHANNEL] 0, [send_log] returns at once and sends nothing,
    and no run of any handler contains an audit send.  Whatever
    [LOG_CHANNEL] is, the store a handler leaves and the replies it
    gives the user are those of the same run with [LOG_CHANNEL] 0.
    With [LOG_CHANNEL] not 0, [send_log] starts with the send of the
    record to that channel, and the record is a header followed by the
    input text whole and by the first 3500 characters of the output
    text. *)
Theorem log_channel_zero_and_truncation (cfg : Config) (w : World)
    (r : Request) (st : gmap Z bool) (user : option User)
    (command user_text answer : str) :
  env_int ∅ "LOG_CHANNEL" = Some 0
  /\ (LOG_CHANNEL cfg = 0 ->
      send_log cfg w user command user_text answer st = (tt, st, [])
      /\ Forall (fun e => is_log_send e = false)
           (trace_of (handle cfg w r st)))
  /\ final_store (handle cfg w r st)
     = final_store (handle (with_log_channel cfg 0) w r st)
  /\ List.filter is_reply (trace_of (handle cfg w r st))
     = List.filter is_reply (trace_of (handle (with_log_channel cfg 0) w r st))
  /\ (LOG_CHANNEL cfg <> 0 ->
      exists diag,
        send_log cfg w user command user_text answer st
        = (tt, st,
           SendMessage (LOG_CHANNEL cfg)
             (log_msg user command user_text answer) HTML :: diag)
        /\ Forall (fun e => is_print e = true) diag)
  /\ (exists header : str,
        forall input output : str,
          log_msg user command input output
          = header ++ input ++ nl ++ nl ++ utf8 "📤 Output:" ++ nl
            ++ take 3500 output)
  /\ length (take 3500 answer) = Nat.min 3500 (length answer).
Proof.
  split; [reflexivity|].
  split.
  { intros H0. split.
    - by rewrite send_log_run, audit_events_off.
    - by apply handle_silent. }
  split; [apply handle_store_log_channel|].
  split; [apply handle_replies|].
  split.
  { intros Hne. rewrite send_log_run.
    destruct (audit_events_on_shape cfg w user command user_text answer Hne)
      as (diag & -> & Hdiag).
    eauto. }
  split; [apply log_msg_shape|].
  apply length_take.
Qed.

Lemma log_channel_zero_and_truncation_witness :
  send_log cfg_nolog world_ok (Some alice) (utf8 "explain") (utf8 "hello")
    (utf8 "T") ∅ = (tt, ∅, [])
  /\ exists diag,
       send_log cfg_demo world_ok (Some alice) (utf8 "explain") (utf8 "hello")
         (utf8 "T") ∅
       = (tt, ∅,
          SendMessage (LOG_CHANNEL cfg_demo)
            (log_msg (Some alice) (utf8 "explain") (utf8 "hello") (utf8 "T"))
            HTML :: diag)
       /\ Forall (fun e => is_print e = true) diag.
Proof.
  split.
  - refine (proj1 (proj1 (proj2 (log_channel_zero_and_truncation cfg_nolog
              world_ok (CheckJoinCallback alice) ∅ (Some alice) (utf8 "explain")
              (utf8 "hello") (utf8 "T"))) _)).
    reflexivity.
  - refine (proj1 (proj2 (proj2 (proj2 (proj2 (log_channel_zero_and_truncation
              cfg_demo world_ok (CheckJoinCallback alice) ∅ (Some alice)
              (utf8 "explain") (utf8 "hello") (utf8 "T")))))) _).
    vm_compute. discriminate.
Defined.

(** ** The scenarios of the specification, run *)

(** A new user sends [/start], is shown the join prompt, presses the
    button as a channel member, then sends [/explain hello]: the answer
    [T] comes back and the audit record carries the command, the input
    and [T]. *)
Example scenario_join_then_explain :
  let st1 := final_store (start cfg_demo (command_update alice (utf8 "/start")) ∅) in
  let st2 := final_store (check_join cfg_demo world_ok alice st1) in
  st1 = <[7 := false]> ∅
  /\ trace_of (start cfg_demo (command_update alice (utf8 "/start")) ∅)
     = [SqlAddUser 7; SqlIsJoined 7; join_prompt_event cfg_demo]
  /\ st2 = <[7 := true]> ∅
  /\ trace_of (explain cfg_demo world_ok
                 (command_update alice (utf8 "/explain hello")) st2)
     = [SqlIsJoined 7;
        ChatCompletion EXPLAIN_MODEL explain_system
          (build_explain_prompt (utf8 "hello"));
        ReplyText (utf8 "T") Markdown None false;
        SendMessage (-1001)
          (log_msg (Some alice) (utf8 "explain") (utf8 "hello") (utf8 "T"))
          HTML].
Proof. vm_compute. repeat split. Qed.

(** The administrator broadcasts to three stored users, one of whom
    has blocked the bot. *)
Example scenario_broadcast_three_users :
  exists t,
    trace_of (broadcast cfg_demo world_ok
                (command_update admin (utf8 "/broadcast hi"))
                (<[2 := false]> (<[3 := true]> (<[7 := true]> ∅))))
    = t ++ [ReplyText (broadcast_report 2 1) None None false]
    /\ length t = 4%nat.
Proof. eexists (_ :: _ :: _ :: [_]). vm_compute. split; reflexivity. Qed.

(** An audit record for an output of 3600 characters carries 3500 of
    them. *)
Example log_msg_truncates :
  length (log_msg None [] [] (replicate 3600 120%N))
  = (length (log_msg None [] [] []) + 3500)%nat.
Proof. vm_compute. reflexivity. Qed.

(** [/explain] followed by text that itself begins with the command
    word is a usage error. *)
Example explain_of_explain_is_usage :
  trace_of (explain cfg_demo world_ok
              (command_update alice (utf8 "/explain /explain x"))
              (<[7 := true]> ∅))
  = [SqlIsJoined 7; ReplyText explain_usage Markdown None false].
Proof. reflexivity. Qed.

(** * Further properties of the code *)

(** ** Database utils *)

(** X1.  For a user without a record the two writes do not commute:
    registering and then marking verified leaves the user joined,
    marking verified and then registering leaves the user registered
    and not joined. *)
Theorem register_verify_order (st : gmap Z bool) (id : Z) :
  st !! id = None ->
  value_of (is_joined id
              (final_store (update_join id (final_store (add_user id st)))))
  = true
  /\ value_of (is_joined id
                 (final_store (add_user id (final_store (update_join id st)))))
     = false
  /\ final_store (add_user id (final_store (update_join id st))) !! id
     = Some false.
Proof.
  intros Hn. unfold value_of, final_store, is_joined, update_join, add_user;
    simpl.
  rewrite set_joined_lookup, insert_or_ignore_lookup, Hn. simpl.
  rewrite (set_joined_absent st id Hn).
  rewrite insert_or_ignore_lookup, Hn. done.
Qed.

Lemma register_verify_order_witness :
  value_of (is_joined 7
              (final_store (update_join 7 (final_store (add_user 7 ∅)))))
  = true
  /\ value_of (is_joined 7
                 (final_store (add_user 7 (final_store (update_join 7 ∅)))))
     = false
  /\ final_store (add_user 7 (final_store (update_join 7 ∅))) !! 7
     = Some false.
Proof. apply register_verify_order. reflexivity. Defined.

(** X2.  [add_user] is idempotent and two registrations commute;
    [update_join] is idempotent and two of them commute; a registration
    and a verification of different users commute. *)
Theorem store_writes_commute (st : gmap Z bool) (a b : Z) :
  final_store (add_user a (final_store (add_user a st)))
  = final_store (add_user a st)
  /\ final_store (add_user a (final_store (add_user b st)))
     = final_store (add_user b (final_store (add_user a st)))
  /\ final_store (update_join a (final_store (update_join a st)))
     = final_store (update_join a st)
  /\ final_store (update_join a (final_store (update_join b st)))
     = final_store (update_join b (final_store (update_join a st)))
  /\ (a <> b ->
      final_store (add_user a (final_store (update_join b st)))
      = final_store (update_join b (final_store (add_user a st)))).
Proof.
  unfold final_store, add_user, update_join; simpl.
  split; [|split; [|split; [|split]]].
  - apply insert_or_ignore_existing. rewrite insert_or_ignore_lookup. eauto.
  - apply map_eq. intros j.
    destruct (decide (a = b)) as [->|Hab]; [done|].
    destruct (decide (a = j)) as [->|Haj].
    + rewrite insert_or_ignore_lookup, !insert_or_ignore_other by done.
      by rewrite insert_or_ignore_lookup.
    + rewrite (insert_or_ignore_other _ a j) by done.
      destruct (decide (b = j)) as [->|Hbj].
      * rewrite !insert_or_ignore_lookup.
        by rewrite insert_or_ignore_other by done.
      * by rewrite !insert_or_ignore_other by done.
  - apply set_joined_idem.
  - apply map_eq. intros j.
    destruct (decide (a = b)) as [->|Hab]; [done|].
    destruct (decide (a = j)) as [->|Haj].
    + rewrite set_joined_lookup, !set_joined_other by done.
      by rewrite set_joined_lookup.
    + rewrite (set_joined_other _ a j) by done.
      destruct (decide (b = j)) as [->|Hbj].
      * rewrite !set_joined_lookup. by rewrite set_joined_other by done.
      * by rewrite !set_joined_other by done.
  - intros Hab. apply map_eq. intros j.
    destruct (decide (a = j)) as [->|Haj].
    + rewrite insert_or_ignore_lookup, !set_joined_other by done.
      by rewrite insert_or_ignore_lookup.
    + rewrite (insert_or_ignore_other _ a j) by done.
      destruct (decide (b = j)) as [->|Hbj].
      * rewrite !set_joined_lookup. by rewrite insert_or_ignore_other by done.
      * rewrite !set_joined_other by done.
        by rewrite insert_or_ignore_other by done.
Qed.

Lemma store_writes_commute_witness :
  final_store (add_user 7 (final_store (update_join 2 (<[2 := false]> ∅))))
  = final_store (update_join 2 (final_store (add_user 7 (<[2 := false]> ∅)))).
Proof.
  refine (proj2 (proj2 (proj2 (proj2
            (store_writes_commute (<[2 := false]> ∅) 7 2)))) _).
  discriminate.
Defined.

(** X3.  [get_all_users] lists every stored id once.  After [add_user]
    the list holds the new id and the ids it held before; [update_join]
    changes neither the ids listed nor their number. *)
Theorem get_all_users_after_writes (st : gmap Z bool) (id : Z) :
  NoDup (value_of (get_all_users st))
  /\ length (value_of (get_all_users st)) = size st
  /\ (forall j, j ∈ value_of (get_all_users (final_store (add_user id st)))
             <-> j = id \/ j ∈ value_of (get_all_users st))
  /\ (forall j, j ∈ value_of (get_all_users (final_store (update_join id st)))
             <-> j ∈ value_of (get_all_users st))
  /\ length (value_of (get_all_users (final_store (update_join id st))))
     = length (value_of (get_all_users st)).
Proof.
  assert (Hin : forall (m : gmap Z bool) j,
            j ∈ (map_to_list m).*1 <-> is_Some (m !! j)).
  { intros m j. rewrite list_elem_of_fmap. split.
    - intros [[k b] [-> H]]. apply elem_of_map_to_list in H. eauto.
    - intros [b Hb]. exists (j, b). split; [done|].
      by apply elem_of_map_to_list. }
  unfold value_of, final_store, get_all_users, add_user, update_join; simpl.
  split; [apply NoDup_fst_map_to_list|].
  split; [rewrite length_fmap; apply length_map_to_list|].
  split; [|split].
  - intros j. rewrite !Hin. destruct (decide (id = j)) as [->|Hne].
    + rewrite insert_or_ignore_lookup. split; eauto.
    + rewrite insert_or_ignore_other by done. split; [eauto|].
      intros [->|H]; done.
  - intros j. rewrite !Hin. destruct (decide (id = j)) as [->|Hne].
    + rewrite set_joined_lookup. destruct (st !! j); simpl; split; eauto.
    + by rewrite set_joined_other by done.
  - rewrite !length_fmap, !length_map_to_list.
    rewrite <- !(size_dom (D := gset Z)). unfold set_joined.
    by rewrite dom_alter_L.
Qed.

(** ** Prompt builders *)

Lemma build_explain_prompt_shape :
  exists header : str,
    forall t, build_explain_prompt t
              = header ++ t ++ dquote ++ dquote ++ dquote.
Proof.
  eexists. intros t. unfold build_explain_prompt.
  repeat rewrite <- (app_assoc _ _ _).
  rewrite !(app_assoc _ _ (t ++ _)).
  reflexivity.
Qed.

Lemma build_prompt_refiner_shape :
  exists header footer : str,
    forall t, build_prompt_refiner t = header ++ t ++ footer.
Proof.
  eexists _, _. intros t. unfold build_prompt_refiner.
  repeat rewrite <- (app_assoc _ _ _).
  rewrite !(app_assoc _ _ (t ++ _)).
  reflexivity.
Qed.

(** X4.  [build_explain_prompt] puts the user text, unchanged, between
    a fixed header and the closing three quotes, so the prompt is longer
    than the text by a fixed amount and two different texts never give
    the same prompt. *)
Theorem build_explain_prompt_embeds :
  exists header : str,
    (forall t, build_explain_prompt t
               = header ++ t ++ dquote ++ dquote ++ dquote)
    /\ (forall t, length (build_explain_prompt t)
                  = (length header + length t + 3)%nat)
    /\ (forall a b, build_explain_prompt a = build_explain_prompt b -> a = b).
Proof.
  destruct build_explain_prompt_shape as [header Hshape].
  exists header.
  split; [exact Hshape|]. split.
  - intros t. rewrite Hshape, !length_app. simpl. lia.
  - intros a b. rewrite !Hshape. intros H%app_inv_head.
    by apply app_inv_tail in H.
Qed.

(** X5.  [build_prompt_refiner] puts the user text, unchanged, between
    a fixed header and a fixed footer; two different texts never give
    the same prompt. *)
Theorem build_prompt_refiner_embeds :
  exists header footer : str,
    (forall t, build_prompt_refiner t = header ++ t ++ footer)
    /\ (forall t, length (build_prompt_refiner t)
                  = (length header + length t + length footer)%nat)
    /\ (forall a b, build_prompt_refiner a = build_prompt_refiner b -> a = b).
Proof.
  destruct build_prompt_refiner_shape as (header & footer & Hshape).
  exists header, footer.
  split; [exact Hshape|]. split.
  - intros t. rewrite Hshape, !length_app. lia.
  - intros a b. rewrite !Hshape. intros H%app_inv_head.
    by apply app_inv_tail in H.
Qed.

(** ** Words of a command *)

Lemma split_go_clean (cur s : str) :
  Forall (fun c => is_space c = false) cur ->
  Forall (fun t => t <> [] /\ Forall (fun c => is_space c = false) t)
    (split_go cur s).
Proof.
  revert cur. induction s as [|c r IH]; intros cur Hcur; simpl.
  - destruct cur as [|x cur']; [constructor|].
    constructor; [|constructor]. split.
    + simpl. by destruct (rev cur').
    + rewrite Forall_forall in *. intros y Hy%list_elem_of_In%in_rev.
      by apply Hcur, list_elem_of_In.
  - destruct (is_space c) eqn:E.
    + destruct cur as [|x cur']; [by apply IH|].
      constructor; [|by apply IH]. split.
      * simpl. by destruct (rev cur').
      * rewrite Forall_forall in *. intros y Hy%list_elem_of_In%in_rev.
        by apply Hcur, list_elem_of_In.
    + apply IH. by constructor.
Qed.

Lemma split_go_word (t rest cur : str) :
  Forall (fun c => is_space c = false) t ->
  split_go cur (t ++ rest) = split_go (rev t ++ cur) rest.
Proof.
  intros Ht. revert cur. induction Ht as [|c t' Hc _ IH]; intros cur; simpl.
  - done.
  - rewrite Hc, IH. by rewrite <- app_assoc.
Qed.

Lemma py_split_join (toks : list str) :
  Forall (fun t => t <> [] /\ Forall (fun c => is_space c = false) t) toks ->
  py_split (py_join (utf8 " ") toks) = toks.
Proof.
  unfold py_split.
  induction 1 as [|t rest [Hne Ht] Hrest IH]; [done|].
  destruct rest as [|t2 rest'].
  - simpl. rewrite <- (app_nil_r t) at 1.
    rewrite split_go_word by done. simpl. rewrite app_nil_r.
    destruct (rev t) eqn:E.
    + apply (f_equal (@rev N)) in E. rewrite rev_involutive in E. done.
    + by rewrite <- E, rev_involutive.
  - change (py_join (utf8 " ") (t :: t2 :: rest'))
      with (t ++ 32%N :: py_join (utf8 " ") (t2 :: rest')).
    rewrite split_go_word by done. rewrite app_nil_r.
    cbn [split_go]. change (is_space 32) with true. cbv iota.
    rewrite IH.
    destruct (rev t) eqn:E.
    + apply (f_equal (@rev N)) in E. rewrite rev_involutive in E. done.
    + by rewrite <- E, rev_involutive.
Qed.

Lemma py_join_empty (toks : list str) :
  Forall (fun t => t <> [] /\ Forall (fun c => is_space c = false) t) toks ->
  py_join (utf8 " ") toks = [] -> toks = [].
Proof.
  intros H. destruct H as [|t rest [Hne _] _]; [done|].
  destruct rest; simpl.
  - done.
  - intros E. by apply app_eq_nil in E as [-> _].
Qed.

Lemma command_args_clean (u : User) (text : str) :
  Forall (fun t => t <> [] /\ Forall (fun c => is_space c = false) t)
    (args (command_update u text)).
Proof.
  simpl. pose proof (split_go_clean [] text ltac:(constructor)) as H.
  unfold py_split. destruct (split_go [] text); [constructor|].
  simpl. by inversion H.
Qed.

(** X6.  For a command, [context.args] holds only non-empty words free
    of whitespace; the text the handlers rebuild from them by joining
    with single spaces splits back into exactly those words, and is
    empty only when there is no word after the command. *)
Theorem command_text_normalised (u : User) (text : str) :
  Forall (fun t => t <> [] /\ Forall (fun c => is_space c = false) t)
    (args (command_update u text))
  /\ py_split (prompt_user_text (command_update u text))
     = args (command_update u text)
  /\ (prompt_user_text (command_update u text) = []
      <-> args (command_update u text) = []).
Proof.
  pose proof (command_args_clean u text) as Hc.
  split; [exact Hc|]. split.
  - unfold prompt_user_text. by apply py_split_join.
  - unfold prompt_user_text. split.
    + by apply py_join_empty.
    + by intros ->.
Qed.

(** ** The shapes a handled update can take *)

Lemma count_events_app (p : Event -> bool) (t1 t2 : list Event) :
  count_events p (t1 ++ t2) = (count_events p t1 + count_events p t2)%nat.
Proof. unfold count_events. by rewrite List.filter_app, length_app. Qed.

Lemma count_events_none (p : Event -> bool) (t : list Event) :
  Forall (fun e => p e = false) t -> count_events p t = 0%nat.
Proof.
  unfold count_events. induction 1 as [|e t He _ IH]; [done|].
  simpl. by rewrite He.
Qed.

Lemma count_events_exists (p : Event -> bool) (t : list Event) :
  Exists (fun e => p e = true) t <-> (0 < count_events p t)%nat.
Proof.
  unfold count_events. induction t as [|e t IH]; simpl.
  - split; [by intros H; inversion H|lia].
  - rewrite Exists_cons, IH. destruct (p e); simpl.
    + split; [lia|auto].
    + split; [by intros [?|?]|auto].
Qed.

Lemma audit_events_kinds (cfg : Config) (w : World) (user : option User)
    (command user_text answer : str) :
  audit_events cfg w user command user_text answer = []
  \/ (LOG_CHANNEL cfg <> 0
      /\ exists diag,
           audit_events cfg w user command user_text answer
           = SendMessage (LOG_CHANNEL cfg)
               (log_msg user command user_text answer) HTML :: diag
           /\ Forall (fun e => is_print e = true) diag).
Proof.
  destruct (decide (LOG_CHANNEL cfg = 0)) as [H|H].
  - left. by apply audit_events_off.
  - right. split; [done|]. by apply audit_events_on_shape.
Qed.

Lemma start_run (cfg : Config) (u : Update) (st : gmap Z bool) :
  start cfg u st
  = (tt, insert_or_ignore (user_id (effective_user u)) st,
     [SqlAddUser (user_id (effective_user u));
      SqlIsJoined (user_id (effective_user u));
      if default false (st !! user_id (effective_user u))
      then ReplyText welcome_text Markdown None true
      else join_prompt_event cfg]).
Proof.
  unfold start, bind, add_user, is_joined; simpl.
  rewrite insert_or_ignore_lookup; simpl.
  by destruct (default false _).
Qed.

Lemma check_join_nonmember_run (cfg : Config) (w : World) (q : User)
    (st : gmap Z bool) :
  value_of (is_member cfg w (user_id q) st) = false ->
  exists diag,
    Forall (fun e => is_print e = true) diag
    /\ check_join cfg w q st
       = (tt, st,
          GetChatMember (REQUIRED_CHANNEL cfg) (user_id q)
          :: diag ++ [AnswerQuery (utf8 "❌ You haven't joined yet!") true]).
Proof.
  unfold check_join, is_member, bind, emit, update_join, value_of; simpl.
  destruct (get_chat_member w _ _); simpl.
  - destruct (bool_decide _); simpl; intros Hm; [discriminate Hm|].
    exists []. split; [constructor|reflexivity].
  - intros _. eexists [_]. split; [|reflexivity]. repeat constructor.
  - intros _. eexists [_]. split; [|reflexivity]. repeat constructor.
  - intros _. eexists [_]. split; [|reflexivity]. repeat constructor.
Qed.

Lemma broadcast_run (cfg : Config) (w : World) (u : Update) (st : gmap Z bool) :
  (exists text mode,
     broadcast cfg w u st = (tt, st, [ReplyText text mode None false])
     /\ (user_id (effective_user u) <> ADMIN_ID cfg \/ args u = []))
  \/ (user_id (effective_user u) = ADMIN_ID cfg
      /\ args u <> []
      /\ exists sent failed,
           broadcast cfg w u st
           = (tt, st,
              SqlGetAllUsers
              :: ((fun id => SendMessage id (py_join (utf8 " ") (args u)) None)
                    <$> (map_to_list st).*1)
              ++ [ReplyText (broadcast_report sent failed) None None false])).
Proof.
  unfold broadcast.
  destruct (user_id (effective_user u) =? ADMIN_ID cfg) eqn:E; simpl.
  - apply Z.eqb_eq in E. destruct (args u) as [|a l] eqn:Ea.
    + left. eauto.
    + right. split; [done|]. split; [done|].
      unfold bind, get_all_users, reply_text, emit.
      rewrite broadcast_loop_run. simpl. eauto.
  - apply Z.eqb_neq in E. left. eauto.
Qed.

Lemma explain_run (cfg : Config) (w : World) (u : Update) (st : gmap Z bool) :
  (default false (st !! user_id (effective_user u)) = false
   /\ explain cfg w u st
      = (tt, st, [SqlIsJoined (user_id (effective_user u));
                  join_prompt_event cfg]))
  \/ (default false (st !! user_id (effective_user u)) = true
      /\ exists usage,
           explain cfg w u st
           = (tt, st, [SqlIsJoined (user_id (effective_user u));
                       ReplyText usage Markdown None false]))
  \/ (default false (st !! user_id (effective_user u)) = true
      /\ exists model system prompt text mode user command input output,
           explain cfg w u st
           = (tt, st,
              SqlIsJoined (user_id (effective_user u))
              :: ChatCompletion model system prompt
              :: ReplyText text mode None false
              :: audit_events cfg w user command input output))
  \/ (default false (st !! user_id (effective_user u)) = true
      /\ exists model system prompt text e user command input output,
           reply_error w text Markdown = Some e
           /\ explain cfg w u st
              = (tt, st,
                 SqlIsJoined (user_id (effective_user u))
                 :: ChatCompletion model system prompt
                 :: ReplyText text Markdown None false
                 :: ReplyText (error_text e) None None false
                 :: audit_events cfg w user command input output)).
Proof.
  destruct (default false (st !! user_id (effective_user u))) eqn:E.
  - right. rewrite explain_allowed by done.
    destruct (decide (explain_user_text u = [])) as [H|H].
    { left. split; [done|]. rewrite explain_body_usage by auto. eauto. }
    destruct (startswith (explain_user_text u) (utf8 "/explain")) eqn:Es.
    { left. split; [done|]. rewrite explain_body_usage by auto. eauto. }
    right. rewrite explain_body_call by done.
    unfold trace_of; cbn [snd].
    destruct (chat_completion w _ _ _) as [answer|e].
    + destruct (reply_error w answer Markdown) as [e|] eqn:Er.
      * right. split; [done|]. do 9 eexists. split; [exact Er|reflexivity].
      * left. split; [done|]. do 9 eexists. reflexivity.
    + left. split; [done|]. do 9 eexists. reflexivity.
  - left. split; [done|]. by apply explain_denied.
Qed.

Lemma prompt_refiner_run (cfg : Config) (w : World) (u : Update)
    (st : gmap Z bool) :
  (default false (st !! user_id (effective_user u)) = false
   /\ prompt_refiner cfg w u st
      = (tt, st, [SqlIsJoined (user_id (effective_user u));
                  join_prompt_event cfg]))
  \/ (default false (st !! user_id (effective_user u)) = true
      /\ exists usage,
           prompt_refiner cfg w u st
           = (tt, st, [SqlIsJoined (user_id (effective_user u));
                       ReplyText usage Markdown None false]))
  \/ (default false (st !! user_id (effective_user u)) = true
      /\ exists model system prompt text mode user command input output,
           prompt_refiner cfg w u st
           = (tt, st,
              SqlIsJoined (user_id (effective_user u))
              :: ChatCompletion model system prompt
              :: ReplyText text mode None false
              :: audit_events cfg w user command input output))
  \/ (default false (st !! user_id (effective_user u)) = true
      /\ exists model system prompt text e user command input output,
           reply_error w text Markdown = Some e
           /\ prompt_refiner cfg w u st
              = (tt, st,
                 SqlIsJoined (user_id (effective_user u))
                 :: ChatCompletion model system prompt
                 :: ReplyText text Markdown None false
                 :: ReplyText (error_text e) None None false
                 :: audit_events cfg w user command input output)).
Proof.
  destruct (default false (st !! user_id (effective_user u))) eqn:E.
  - right. rewrite prompt_refiner_allowed by done.
    destruct (decide (prompt_user_text u = [])) as [H|H].
    { left. split; [done|]. rewrite prompt_refiner_body_usage by auto. eauto. }
    right. rewrite prompt_refiner_body_call by done.
    unfold trace_of; cbn [snd].
    destruct (chat_completion w _ _ _) as [answer|e].
    + destruct (reply_error w (py_strip answer) Markdown) as [e|] eqn:Er.
      * right. split; [done|]. do 9 eexists. split; [exact Er|reflexivity].
      * left. split; [done|]. do 9 eexists. reflexivity.
    + left. split; [done|]. do 9 eexists. reflexivity.
  - left. split; [done|]. by apply prompt_refiner_denied.
Qed.

Lemma audit_events_count (p : Event -> bool) (cfg : Config) (w : World)
    (user : option User) (command user_text answer : str) :
  (forall chat text mode, p (SendMessage chat text mode) = false) ->
  (forall text, p (Print text) = false) ->
  count_events p (audit_events cfg w user command user_text answer) = 0%nat.
Proof.
  intros Hs Hp. apply count_events_none.
  destruct (audit_events_kinds cfg w user command user_text answer)
    as [->|(_ & diag & -> & Hdiag)]; [constructor|].
  constructor; [apply Hs|].
  eapply Forall_impl; [exact Hdiag|]. intros [] He; try discriminate He.
  apply Hp.
Qed.

Lemma prints_count (p : Event -> bool) (diag : list Event) :
  (forall text, p (Print text) = false) ->
  Forall (fun e => is_print e = true) diag ->
  count_events p diag = 0%nat.
Proof.
  intros Hp Hdiag. apply count_events_none.
  eapply Forall_impl; [exact Hdiag|]. intros [] He; try discriminate He.
  apply Hp.
Qed.

Lemma sends_count (p : Event -> bool) (message : str) (users : list Z) :
  (forall chat text mode, p (SendMessage chat text mode) = false) ->
  count_events p ((fun id => SendMessage id message None) <$> users) = 0%nat.
Proof.
  intros Hs. apply count_events_none, Forall_fmap, Forall_forall.
  intros id _. apply Hs.
Qed.

Lemma audit_events_log_count (cfg : Config) (w : World)
    (user : option User) (command user_text answer : str) :
  LOG_CHANNEL cfg <> 0 ->
  count_events is_log_send (audit_events cfg w user command user_text answer)
  = 1%nat.
Proof.
  intros H.
  destruct (audit_events_on_shape cfg w user command user_text answer H)
    as (diag & -> & Hdiag).
  change (count_events is_log_send (?e :: diag))
    with (count_events is_log_send ([e] ++ diag)).
  rewrite count_events_app, (prints_count is_log_send diag) by done.
  reflexivity.
Qed.

Lemma sends_log_count (message : str) (users : list Z) :
  count_events is_log_send ((fun id => SendMessage id message None) <$> users)
  = 0%nat.
Proof.
  apply count_events_none, Forall_fmap, Forall_forall. by intros id _.
Qed.

(** Case analysis on a handled update: each goal gets the run of the
    handler written out. *)
Ltac handle_cases cfg w r st :=
  let u := fresh "u" in
  let q := fresh "q" in
  let Hrun := fresh "Hrun" in
  let Hflag := fresh "Hflag" in
  let Hmem := fresh "Hmem" in
  let Hdiag := fresh "Hdiag" in
  let Hwhy := fresh "Hwhy" in
  let Hadm := fresh "Hadm" in
  let Hargs := fresh "Hargs" in
  let Hrefused := fresh "Hrefused" in
  destruct r as [u|u|u|u|q|u];
  [ change (handle cfg w (StartCommand u) st) with (start cfg u st);
    rewrite (start_run cfg u st)
  | change (handle cfg w (ExplainCommand u) st) with (explain cfg w u st);
    destruct (explain_run cfg w u st)
      as [[Hflag Hrun]|[[Hflag [? Hrun]]|[[Hflag (?&?&?&?&?&?&?&?&?&Hrun)]
          |[Hflag (?&?&?&?&?&?&?&?&?&Hrefused&Hrun)]]]];
    rewrite Hrun
  | change (handle cfg w (PromptCommand u) st)
      with (prompt_refiner cfg w u st);
    destruct (prompt_refiner_run cfg w u st)
      as [[Hflag Hrun]|[[Hflag [? Hrun]]|[[Hflag (?&?&?&?&?&?&?&?&?&Hrun)]
          |[Hflag (?&?&?&?&?&?&?&?&?&Hrefused&Hrun)]]]];
    rewrite Hrun
  | change (handle cfg w (BroadcastCommand u) st) with (broadcast cfg w u st);
    destruct (broadcast_run cfg w u st)
      as [(?&?&Hrun&Hwhy)|(Hadm&Hargs&?&?&Hrun)];
    rewrite Hrun
  | change (handle cfg w (CheckJoinCallback q) st) with (check_join cfg w q st);
    destruct (value_of (is_member cfg w (user_id q) st)) eqn:Hmem;
    [ rewrite (check_join_member_run cfg w q st Hmem)
    | destruct (check_join_nonmember_run cfg w q st Hmem) as (?&Hdiag&Hrun);
      rewrite Hrun ]
  | change (handle cfg w (PlainText u) st) with (explain cfg w u st);
    destruct (explain_run cfg w u st)
      as [[Hflag Hrun]|[[Hflag [? Hrun]]|[[Hflag (?&?&?&?&?&?&?&?&?&Hrun)]
          |[Hflag (?&?&?&?&?&?&?&?&?&Hrefused&Hrun)]]]];
    rewrite Hrun ];
  unfold trace_of, final_store, join_prompt_event; cbn [fst snd requester];
  try match goal with
      | |- context [if default false ?x then _ else _] =>
        destruct (default false x)
      end.

Ltac count_trace :=
  repeat first
    [ rewrite count_events_app
    | rewrite audit_events_count by done
    | rewrite audit_events_log_count by assumption
    | rewrite sends_count by done
    | rewrite sends_log_count
    | rewrite prints_count by done
    | match goal with
      | |- context [count_events ?p (?e :: ?t)] =>
        change (count_events p (e :: t))
          with (count_events p ([e] ++ t));
        rewrite (count_events_app p [e] t);
        change (count_events p [e])
          with (if p e then 1%nat else 0%nat); cbn [is_reply
            is_completion_call is_membership_query is_add_user is_print
            is_store_write is_log_send]
      end
    | progress change (count_events _ []) with 0%nat ].

(** ** What every handled update does and never does *)

(** X7.  A command, a text message or a button press of a user is
    answered at least once and at most twice (by replies, an edit of
    the prompt message or an alert, counted as they are attempted).  It
    is answered twice only when the platform refused the Markdown reply
    carrying a completion: the second answer is then the error marker
    followed by the text of the refusal.  When no Markdown reply is
    refused there is exactly one answer. *)
Theorem user_message_answered (cfg : Config) (w : World) (r : Request)
    (st : gmap Z bool) :
  (1 <= count_events is_reply (trace_of (handle cfg w r st)) <= 2)%nat
  /\ ((forall text, reply_error w text (Some (utf8 "Markdown")) = None) ->
      count_events is_reply (trace_of (handle cfg w r st)) = 1%nat)
  /\ (count_events is_reply (trace_of (handle cfg w r st)) = 2%nat ->
      exists text e,
        reply_error w text (Some (utf8 "Markdown")) = Some e
        /\ List.filter is_reply (trace_of (handle cfg w r st))
           = [ReplyText text (Some (utf8 "Markdown")) None false;
              ReplyText (utf8 "⚠️ Error: " ++ e) None None false]).
Proof.
  handle_cases cfg w r st; count_trace; cbn [Nat.add].
  all: split; [lia|].
  all: try (split; [reflexivity|intros H; discriminate H]).
  all: split.
  all: try (intros Hnone;
            match goal with
            | Hr : reply_error _ _ _ = Some _ |- _ =>
              rewrite Hnone in Hr; discriminate Hr
            end).
  all: intros _; do 2 eexists; split; [eassumption|].
  all: cbn [List.filter is_reply]; by rewrite audit_events_replies.
Qed.

Lemma user_message_answered_witness :
  count_events is_reply
    (trace_of (handle cfg_demo world_ok
                 (ExplainCommand (command_update alice (utf8 "/explain hello")))
                 (<[7 := true]> ∅)))
  = 1%nat.
Proof.
  refine (proj1 (proj2 (user_message_answered cfg_demo world_ok
            (ExplainCommand (command_update alice (utf8 "/explain hello")))
            (<[7 := true]> ∅))) _).
  reflexivity.
Defined.

(** X8.  A handled update makes at most one completion call, and makes
    one only for a gated request of a user whose stored flag is
    [true]. *)
Theorem completion_only_past_gate (cfg : Config) (w : World) (r : Request)
    (st : gmap Z bool) :
  (count_events is_completion_call (trace_of (handle cfg w r st)) <= 1)%nat
  /\ (Exists (fun e => is_completion_call e = true)
        (trace_of (handle cfg w r st)) ->
      is_gated r = true /\ st !! requester r = Some true).
Proof.
  rewrite count_events_exists.
  assert (Hflag_true : forall id,
            default false (st !! id) = true -> st !! id = Some true).
  { intros id. destruct (st !! id) as [[]|]; simpl; congruence. }
  handle_cases cfg w r st;
    count_trace; (split; [lia|]); try (intros H; exfalso; lia).
  all: intros _; split; [reflexivity|by apply Hflag_true].
Qed.

(** X9.  The platform is asked about membership only by [check_join],
    and by it exactly once: no other handler queries it. *)
Theorem membership_query_only_in_check_join (cfg : Config) (w : World)
    (r : Request) (st : gmap Z bool) :
  count_events is_membership_query (trace_of (handle cfg w r st))
  = match r with CheckJoinCallback _ => 1%nat | _ => 0%nat end.
Proof.
  handle_cases cfg w r st; count_trace; reflexivity.
Qed.

(** X10.  With a log channel configured, a command, a text message or
    a button press of a user leads to as many audit records as
    completion calls: denied requests, usage errors, [/start],
    [check_join] and [/broadcast] are never audited, and a completion
    attempt is audited once, whether the call returned, raised, or
    returned a text whose Markdown reply the platform refused. *)
Theorem audit_iff_completion (cfg : Config) (w : World) (r : Request)
    (st : gmap Z bool) :
  LOG_CHANNEL cfg <> 0 ->
  count_events is_log_send (trace_of (handle cfg w r st))
  = count_events is_completion_call (trace_of (handle cfg w r st)).
Proof.
  intros Hlog. handle_cases cfg w r st; count_trace; reflexivity.
Qed.

Lemma audit_iff_completion_witness :
  count_events is_log_send
    (trace_of (handle cfg_demo world_ok
                 (ExplainCommand (command_update alice (utf8 "/explain hello")))
                 (<[7 := true]> ∅)))
  = count_events is_completion_call
      (trace_of (handle cfg_demo world_ok
                   (ExplainCommand (command_update alice (utf8 "/explain hello")))
                   (<[7 := true]> ∅))).
Proof. apply audit_iff_completion. vm_compute. discriminate. Defined.

Lemma set_joined_insert (st : gmap Z bool) (id : Z) (b : bool) :
  st !! id = Some b -> set_joined id st = <[id := true]> st.
Proof.
  intros Hb. apply map_eq. intros j. destruct (decide (id = j)) as [->|Hne].
  - by rewrite set_joined_lookup, Hb, lookup_insert_eq.
  - by rewrite set_joined_other, lookup_insert_ne.
Qed.

(** X11.  A handled update changes the store in two cases only: a
    [/start] from a user without a record, which adds the record with
    [joined = FALSE], and a [check_join] from a user whose record says
    [FALSE] and whom the verifier reports as member, which sets that
    flag.  Every other update, and every other record, is left as it
    was. *)
Theorem store_changes_characterised (cfg : Config) (w : World) (r : Request)
    (st : gmap Z bool) :
  final_store (handle cfg w r st) <> st ->
  (exists u, r = StartCommand u
             /\ st !! user_id (effective_user u) = None
             /\ final_store (handle cfg w r st)
                = <[user_id (effective_user u) := false]> st)
  \/ (exists q, r = CheckJoinCallback q
                /\ st !! user_id q = Some false
                /\ value_of (is_member cfg w (user_id q) st) = true
                /\ final_store (handle cfg w r st)
                   = <[user_id q := true]> st).
Proof.
  destruct r as [u|u|u|u|q|u]; simpl.
  - rewrite start_store. intros Hne. left. exists u. split; [done|].
    unfold insert_or_ignore in *.
    destruct (st !! user_id (effective_user u)); [done|]. done.
  - rewrite explain_store. done.
  - rewrite prompt_refiner_store. done.
  - rewrite broadcast_store. done.
  - rewrite check_join_store.
    destruct (value_of (is_member cfg w (user_id q) st)) eqn:Hmem; [|done].
    intros Hne. right. exists q. split; [done|].
    destruct (st !! user_id q) as [[]|] eqn:E.
    + exfalso. apply Hne. apply alter_id. intros x Hx. congruence.
    + split; [done|]. split; [done|]. by eapply set_joined_insert.
    + exfalso. apply Hne. by apply set_joined_absent.
  - rewrite explain_store. done.
Qed.

Lemma store_changes_characterised_witness :
  (exists u, CheckJoinCallback alice = StartCommand u
             /\ (<[7 := false]> ∅ : gmap Z bool) !! user_id (effective_user u) = None
             /\ final_store (handle cfg_demo world_ok (CheckJoinCallback alice)
                               (<[7 := false]> ∅))
                = <[user_id (effective_user u) := false]> (<[7 := false]> ∅))
  \/ (exists q, CheckJoinCallback alice = CheckJoinCallback q
                /\ (<[7 := false]> ∅ : gmap Z bool) !! user_id q = Some false
                /\ value_of (is_member cfg_demo world_ok (user_id q)
                               (<[7 := false]> ∅)) = true
                /\ final_store (handle cfg_demo world_ok (CheckJoinCallback alice)
                                  (<[7 := false]> ∅))
                   = <[user_id q := true]> (<[7 := false]> ∅)).
Proof.
  apply store_changes_characterised.
  intros H. apply (f_equal (fun m : gmap Z bool => m !! 7)) in H.
  vm_compute in H. discriminate.
Defined.

(** X12.  Access is granted only through verification: if a user's
    flag is [true] after a handled update and was not before, then the
    update was that user's own [check_join], the verifier reported the
    user as member, and the user had a record. *)
Theorem access_only_by_verification (cfg : Config) (w : World) (r : Request)
    (st : gmap Z bool) (id : Z) :
  st !! id <> Some true ->
  final_store (handle cfg w r st) !! id = Some true ->
  exists q, r = CheckJoinCallback q
            /\ user_id q = id
            /\ value_of (is_member cfg w id st) = true
            /\ st !! id = Some false.
Proof.
  intros Hbefore.
  destruct r as [u|u|u|u|q|u]; simpl.
  - rewrite start_store.
    destruct (decide (user_id (effective_user u) = id)) as [<-|Hne].
    + rewrite insert_or_ignore_lookup.
      destruct (st !! user_id (effective_user u)) as [[]|]; simpl; congruence.
    + rewrite insert_or_ignore_other by done. congruence.
  - rewrite explain_store. congruence.
  - rewrite prompt_refiner_store. congruence.
  - rewrite broadcast_store. congruence.
  - rewrite check_join_store.
    destruct (value_of (is_member cfg w (user_id q) st)) eqn:Hmem;
      [|congruence].
    destruct (decide (user_id q = id)) as [<-|Hne].
    + rewrite set_joined_lookup. intros Hafter. exists q.
      destruct (st !! user_id q) as [[]|] eqn:E; simpl in *; try congruence.
      repeat split; auto.
    + rewrite set_joined_other by done. congruence.
  - rewrite explain_store. congruence.
Qed.

Lemma access_only_by_verification_witness :
  exists q, CheckJoinCallback alice = CheckJoinCallback q
            /\ user_id q = 7
            /\ value_of (is_member cfg_demo world_ok 7 (<[7 := false]> ∅)) = true
            /\ (<[7 := false]> ∅ : gmap Z bool) !! 7 = Some false.
Proof.
  apply (access_only_by_verification cfg_demo world_ok
           (CheckJoinCallback alice) (<[7 := false]> ∅) 7).
  - vm_compute. discriminate.
  - reflexivity.
Defined.

(** ** Failing log sends *)

Lemma audit_events_visible (cfg : Config) (w : World) (user : option User)
    (command user_text answer : str) :
  List.filter (fun e => negb (is_print e))
    (audit_events cfg w user command user_text answer)
  = if LOG_CHANNEL cfg =? 0 then []
    else [SendMessage (LOG_CHANNEL cfg)
            (log_msg user command user_text answer) HTML].
Proof.
  destruct (LOG_CHANNEL cfg =? 0) eqn:E.
  - apply Z.eqb_eq in E. by rewrite audit_events_off.
  - apply Z.eqb_neq in E. rewrite audit_events_on by done. simpl.
    by destruct (send_message_error w _ _ _).
Qed.

Lemma filter_replies_visible (t1 t2 : list Event) :
  List.filter (fun e => negb (is_print e)) t1
  = List.filter (fun e => negb (is_print e)) t2 ->
  List.filter is_reply t1 = List.filter is_reply t2.
Proof.
  assert (H : forall t, List.filter is_reply t
                        = List.filter is_reply
                            (List.filter (fun e => negb (is_print e)) t)).
  { induction t as [|e t IH]; [done|]. destruct e; simpl; by rewrite ?IH. }
  intros E. by rewrite (H t1), (H t2), E.
Qed.

Section LogFailure.

Variable cfg : Config.
Variables w w' : World.
Hypothesis Hagree : agree_outside_log w w'.

Lemma explain_body_visible (u : Update) (st : gmap Z bool) :
  List.filter (fun e => negb (is_print e)) (trace_of (explain_body cfg w u st))
  = List.filter (fun e => negb (is_print e))
      (trace_of (explain_body cfg w' u st)).
Proof.
  destruct Hagree as (_ & Hc & _ & Hr).
  destruct (decide (explain_user_text u = [])) as [H|H].
  { by rewrite !explain_body_usage by auto. }
  destruct (startswith (explain_user_text u) (utf8 "/explain")) eqn:E.
  { by rewrite !explain_body_usage by auto. }
  rewrite !explain_body_call by done. unfold trace_of; cbn [snd].
  rewrite <- Hc. destruct (chat_completion w _ _ _);
    try (rewrite <- Hr; destruct (reply_error w _ _));
    cbn [List.filter is_print negb]; by rewrite !audit_events_visible.
Qed.

Lemma prompt_refiner_body_visible (u : Update) (st : gmap Z bool) :
  List.filter (fun e => negb (is_print e))
    (trace_of (prompt_refiner_body cfg w u st))
  = List.filter (fun e => negb (is_print e))
      (trace_of (prompt_refiner_body cfg w' u st)).
Proof.
  destruct Hagree as (_ & Hc & _ & Hr).
  destruct (decide (prompt_user_text u = [])) as [H|H].
  { by rewrite !prompt_refiner_body_usage by auto. }
  rewrite !prompt_refiner_body_call by done. unfold trace_of; cbn [snd].
  rewrite <- Hc. destruct (chat_completion w _ _ _);
    try (rewrite <- Hr; destruct (reply_error w _ _));
    cbn [List.filter is_print negb]; by rewrite !audit_events_visible.
Qed.

Lemma broadcast_agree (u : Update) (st : gmap Z bool) :
  broadcast cfg w u st = broadcast cfg w' u st.
Proof.
  destruct Hagree as (_ & _ & Hs & _).
  unfold broadcast. destruct (negb _); [done|].
  destruct (args u) as [|a l]; [done|].
  unfold bind, get_all_users, reply_text, emit.
  rewrite !broadcast_loop_run.
  assert (Hd : forall m id, delivers w m id = delivers w' m id).
  { intros m id. unfold delivers. by rewrite Hs. }
  assert (Hf1 : forall m (l : list Z),
            List.filter (delivers w m) l = List.filter (delivers w' m) l).
  { intros m l0. apply List.filter_ext. intros id. apply Hd. }
  assert (Hf2 : forall m (l : list Z),
            List.filter (fun id => negb (delivers w m id)) l
            = List.filter (fun id => negb (delivers w' m id)) l).
  { intros m l0. apply List.filter_ext. intros id. by rewrite Hd. }
  by rewrite Hf1, Hf2.
Qed.

Lemma check_join_agree (q : User) (st : gmap Z bool) :
  check_join cfg w q st = check_join cfg w' q st.
Proof.
  destruct Hagree as (Hg & _ & _ & _).
  unfold check_join, is_member, bind, emit. by rewrite Hg.
Qed.

Lemma handle_visible (r : Request) (st : gmap Z bool) :
  final_store (handle cfg w r st) = final_store (handle cfg w' r st)
  /\ List.filter (fun e => negb (is_print e)) (trace_of (handle cfg w r st))
     = List.filter (fun e => negb (is_print e))
         (trace_of (handle cfg w' r st)).
Proof.
  assert (He : forall u,
    final_store (explain cfg w u st) = final_store (explain cfg w' u st)
    /\ List.filter (fun e => negb (is_print e)) (trace_of (explain cfg w u st))
       = List.filter (fun e => negb (is_print e))
           (trace_of (explain cfg w' u st))).
  { intros u. split; [by rewrite !explain_store|].
    destruct (default false (st !! user_id (effective_user u))) eqn:E.
    - rewrite !explain_allowed by done. unfold trace_of at 1 3; cbn [snd].
      cbn [List.filter is_print negb]. f_equal. apply explain_body_visible.
    - by rewrite !explain_denied by done. }
  destruct r as [u|u|u|u|q|u]; simpl; try apply He.
  - done.
  - split; [by rewrite !prompt_refiner_store|].
    destruct (default false (st !! user_id (effective_user u))) eqn:E.
    + rewrite !prompt_refiner_allowed by done. unfold trace_of at 1 3; cbn [snd].
      cbn [List.filter is_print negb]. f_equal.
      apply prompt_refiner_body_visible.
    + by rewrite !prompt_refiner_denied by done.
  - by rewrite broadcast_agree.
  - by rewrite check_join_agree.
Qed.

End LogFailure.

(** X13.  Whether sends to the log channel go through or raise makes
    no difference to anything but the diagnostic prints: in two worlds
    that answer alike on everything except sends in the log's mode, a
    handled update leaves the same store, gives the user the same
    replies, and produces the same events apart from prints. *)
Theorem log_failure_invisible (cfg : Config) (w w' : World) (r : Request)
    (st : gmap Z bool) :
  agree_outside_log w w' ->
  final_store (handle cfg w r st) = final_store (handle cfg w' r st)
  /\ List.filter is_reply (trace_of (handle cfg w r st))
     = List.filter is_reply (trace_of (handle cfg w' r st))
  /\ List.filter (fun e => negb (is_print e)) (trace_of (handle cfg w r st))
     = List.filter (fun e => negb (is_print e))
         (trace_of (handle cfg w' r st)).
Proof.
  intros Hagree.
  destruct (handle_visible cfg w w' Hagree r st) as [Hs Ht].
  split; [exact Hs|]. split; [|exact Ht].
  by apply filter_replies_visible.
Qed.

Lemma log_failure_invisible_witness :
  List.filter is_reply
    (trace_of (handle cfg_demo world_ok
                 (ExplainCommand (command_update alice (utf8 "/explain hello")))
                 (<[7 := true]> ∅)))
  = List.filter is_reply
      (trace_of (handle cfg_demo world_log_down
                   (ExplainCommand (command_update alice (utf8 "/explain hello")))
                   (<[7 := true]> ∅))).
Proof.
  refine (proj1 (proj2 (log_failure_invisible cfg_demo world_ok world_log_down
            (ExplainCommand (command_update alice (utf8 "/explain hello")))
            (<[7 := true]> ∅) _))).
  repeat split.
Defined.

(** ** [/start], the verifier and the recheck *)

(** X14.  [/start] never grants access: for every user the flag the
    gate would read is the same after [/start] as before.  The reply is
    the welcome text exactly when the sender's stored flag is [true],
    the join prompt otherwise; and a second [/start] changes nothing
    more and is answered as the first. *)
Theorem start_keeps_flags (cfg : Config) (u : Update) (st : gmap Z bool) :
  (forall id, value_of (is_joined id (final_store (start cfg u st)))
              = value_of (is_joined id st))
  /\ (ReplyText welcome_text Markdown None true ∈ trace_of (start cfg u st)
      <-> st !! user_id (effective_user u) = Some true)
  /\ (join_prompt_event cfg ∈ trace_of (start cfg u st)
      <-> st !! user_id (effective_user u) <> Some true)
  /\ start cfg u (final_store (start cfg u st))
     = (tt, final_store (start cfg u st), trace_of (start cfg u st)).
Proof.
  assert (Hflag : forall id,
            default false (insert_or_ignore (user_id (effective_user u)) st !! id)
            = default false (st !! id)).
  { intros id. destruct (decide (user_id (effective_user u) = id)) as [<-|Hne].
    - by rewrite insert_or_ignore_lookup.
    - by rewrite insert_or_ignore_other. }
  split; [|split; [|split]].
  - intros id. rewrite start_store. unfold value_of, is_joined; simpl.
    apply Hflag.
  - rewrite start_run. unfold trace_of; cbn [snd].
    destruct (st !! user_id (effective_user u)) as [[]|] eqn:E; simpl.
    + split; [done|]. intros _. do 2 apply list_elem_of_further.
      apply list_elem_of_here.
    + split; [|done].
      intros Hin. repeat (apply elem_of_cons in Hin as [Hin|Hin];
                          [discriminate Hin|]).
      by apply elem_of_nil in Hin.
    + split; [|done].
      intros Hin. repeat (apply elem_of_cons in Hin as [Hin|Hin];
                          [discriminate Hin|]).
      by apply elem_of_nil in Hin.
  - rewrite start_run. unfold trace_of, join_prompt_event; cbn [snd].
    destruct (st !! user_id (effective_user u)) as [[]|] eqn:E; simpl.
    + split; [|done].
      intros Hin. repeat (apply elem_of_cons in Hin as [Hin|Hin];
                          [discriminate Hin|]).
      by apply elem_of_nil in Hin.
    + split; [done|]. intros _. do 2 apply list_elem_of_further.
      apply list_elem_of_here.
    + split; [done|]. intros _. do 2 apply list_elem_of_further.
      apply list_elem_of_here.
  - rewrite (start_run cfg u st). unfold final_store, trace_of; cbn [fst snd].
    rewrite start_run. rewrite Hflag.
    rewrite insert_or_ignore_existing; [done|].
    rewrite insert_or_ignore_lookup. eauto.
Qed.

(** X15.  [is_member] answers [True] exactly when the platform
    returned a status and that status is the word member, administrator
    or creator: every other status (left, kicked, restricted) and every
    exception of the query, whatever its kind, count as not a member.
    The answer does not depend on the store, which [is_member] leaves
    as it is. *)
Theorem is_member_answer (cfg : Config) (w : World) (id : Z)
    (st : gmap Z bool) :
  (value_of (is_member cfg w id st) = true
   <-> get_chat_member w (REQUIRED_CHANNEL cfg) id
       = MemberStatus (utf8 "member")
       \/ get_chat_member w (REQUIRED_CHANNEL cfg) id
          = MemberStatus (utf8 "administrator")
       \/ get_chat_member w (REQUIRED_CHANNEL cfg) id
          = MemberStatus (utf8 "creator"))
  /\ (forall e,
        get_chat_member w (REQUIRED_CHANNEL cfg) id = RaisesForbidden e
        \/ get_chat_member w (REQUIRED_CHANNEL cfg) id = RaisesBadRequest e
        \/ get_chat_member w (REQUIRED_CHANNEL cfg) id = RaisesOther e ->
        value_of (is_member cfg w id st) = false)
  /\ final_store (is_member cfg w id st) = st
  /\ (forall st', value_of (is_member cfg w id st')
                  = value_of (is_member cfg w id st)).
Proof.
  split; [|split; [|split]].
  - unfold is_member, bind, emit, value_of.
    destruct (get_chat_member w (REQUIRED_CHANNEL cfg) id) as [s|e|e|e];
      simpl.
    + rewrite bool_decide_eq_true. unfold member_statuses.
      rewrite !elem_of_cons, elem_of_nil. split.
      * intros [Hs | [Hs | [Hs | []]]]; subst s; auto.
      * intros [Hs | [Hs | Hs]]; injection Hs as Hs; subst s; auto.
    + split; [done|]. intros [H|[H|H]]; discriminate H.
    + split; [done|]. intros [H|[H|H]]; discriminate H.
    + split; [done|]. intros [H|[H|H]]; discriminate H.
  - intros e. unfold is_member, bind, emit, value_of.
    intros [Hr | [Hr | Hr]]; rewrite Hr; reflexivity.
  - apply is_member_store.
  - intros st'. apply is_member_value.
Qed.

(** X16.  When the verifier does not report membership, [check_join]
    writes nothing: the store is unchanged, no update statement is
    sent, the prompt message is not edited, and the run ends with the
    alert saying the user has not joined yet. *)
Theorem check_join_not_member (cfg : Config) (w : World) (q : User)
    (st : gmap Z bool) :
  value_of (is_member cfg w (user_id q) st) = false ->
  final_store (check_join cfg w q st) = st
  /\ count_events is_store_write (trace_of (check_join cfg w q st)) = 0%nat
  /\ (EditText thanks_text ∉ trace_of (check_join cfg w q st))
  /\ last (trace_of (check_join cfg w q st))
     = Some (AnswerQuery (utf8 "❌ You haven't joined yet!") true).
Proof.
  intros Hmem.
  destruct (check_join_nonmember_run cfg w q st Hmem) as (diag & Hdiag & ->).
  unfold final_store, trace_of; cbn [fst snd].
  split; [done|]. split; [|split].
  - count_trace. reflexivity.
  - intros [Hin|Hin]%elem_of_cons; [discriminate Hin|].
    apply elem_of_app in Hin as [Hin|Hin].
    + rewrite Forall_forall in Hdiag. apply Hdiag in Hin. discriminate Hin.
    + apply list_elem_of_singleton in Hin. discriminate Hin.
  - rewrite app_comm_cons. apply last_snoc.
Qed.

Lemma check_join_not_member_witness :
  final_store (check_join cfg_demo world_out alice (<[7 := false]> ∅))
  = <[7 := false]> ∅.
Proof.
  refine (proj1 (check_join_not_member cfg_demo world_out alice
                   (<[7 := false]> ∅) _)).
  reflexivity.
Defined.

(** ** Edges of the broadcast *)

(** X17.  [/broadcast] from the administrator without a message is
    answered with the usage text before the user list is fetched.  With
    a message, when every delivery goes through the report, whose text
    is written out below, gives the number of stored users as sent and
    0 as failed; when every delivery raises it gives 0 as sent and the
    number of stored users as failed; on an empty store the run is the
    fetch and a report with both counters 0. *)
Theorem broadcast_edges (cfg : Config) (w : World) (u : Update)
    (st : gmap Z bool) :
  user_id (effective_user u) = ADMIN_ID cfg ->
  (args u = [] ->
   broadcast cfg w u st
   = (tt, st,
      [ReplyText (utf8 "❗ Usage: `/broadcast your_message`") (Some (utf8 "Markdown")) None
         false]))
  /\ (args u <> [] ->
      (forall id, send_message_error w id (py_join (utf8 " ") (args u)) None
                  = None) ->
      last (trace_of (broadcast cfg w u st))
      = Some (ReplyText (utf8 "📢 Broadcast complete!" ++ [10%N]
                 ++ utf8 "✅ Sent: " ++ utf8 (pretty (size st)) ++ [10%N]
                 ++ utf8 "⚠️ Failed: " ++ utf8 (pretty 0%nat)) None None false))
  /\ (args u <> [] ->
      (forall id, send_message_error w id (py_join (utf8 " ") (args u)) None
                  <> None) ->
      last (trace_of (broadcast cfg w u st))
      = Some (ReplyText (utf8 "📢 Broadcast complete!" ++ [10%N]
                 ++ utf8 "✅ Sent: " ++ utf8 (pretty 0%nat) ++ [10%N]
                 ++ utf8 "⚠️ Failed: " ++ utf8 (pretty (size st))) None None false))
  /\ (args u <> [] -> st = ∅ ->
      broadcast cfg w u st
      = (tt, st,
         [SqlGetAllUsers; ReplyText (utf8 "📢 Broadcast complete!" ++ [10%N]
                 ++ utf8 "✅ Sent: " ++ utf8 (pretty 0%nat) ++ [10%N]
                 ++ utf8 "⚠️ Failed: " ++ utf8 (pretty 0%nat)) None None false])).
Proof.
  intros Hadm.
  assert (Hrun : args u <> [] ->
    broadcast cfg w u st
    = (tt, st,
       SqlGetAllUsers
       :: ((fun id => SendMessage id (py_join (utf8 " ") (args u)) None)
             <$> (map_to_list st).*1)
       ++ [ReplyText
             (broadcast_report
                (length (List.filter (delivers w (py_join (utf8 " ") (args u)))
                           (map_to_list st).*1))
                (length (List.filter
                           (fun id => negb (delivers w (py_join (utf8 " ") (args u)) id))
                           (map_to_list st).*1)))
             None None false])).
  { intros Hargs. unfold broadcast. rewrite Hadm, Z.eqb_refl. simpl.
    destruct (args u) as [|a l] eqn:Ea; [done|].
    unfold bind, get_all_users, reply_text, emit.
    rewrite broadcast_loop_run. done. }
  assert (Hall : forall (f : Z -> bool) (l : list Z),
            (forall id, f id = true) -> List.filter f l = l).
  { intros f l Hf. induction l as [|x l IH]; [done|].
    simpl. by rewrite Hf, IH. }
  assert (Hnone : forall (f : Z -> bool) (l : list Z),
            (forall id, f id = false) -> List.filter f l = []).
  { intros f l Hf. induction l as [|x l IH]; [done|].
    simpl. by rewrite Hf. }
  assert (Hsize : length (map_to_list st).*1 = size st).
  { rewrite length_fmap. apply length_map_to_list. }
  split; [|split; [|split]].
  - intros Hargs. unfold broadcast. rewrite Hadm, Z.eqb_refl, Hargs. done.
  - intros Hargs Hsent.
    assert (Hok : forall id,
              delivers w (py_join (utf8 " ") (args u)) id = true).
    { intros id. unfold delivers. by rewrite Hsent. }
    rewrite (Hrun Hargs). unfold trace_of; cbn [snd].
    rewrite app_comm_cons, last_snoc.
    rewrite (Hall _ _ Hok), Hnone, Hsize; [reflexivity|].
    intros id. by rewrite Hok.
  - intros Hargs Hfail.
    assert (Hko : forall id,
              delivers w (py_join (utf8 " ") (args u)) id = false).
    { intros id. unfold delivers. specialize (Hfail id).
      by destruct (send_message_error w id _ None). }
    rewrite (Hrun Hargs). unfold trace_of; cbn [snd].
    rewrite app_comm_cons, last_snoc.
    rewrite (Hnone _ _ Hko), Hall, Hsize; [reflexivity|].
    intros id. by rewrite Hko.
  - intros Hargs ->. rewrite (Hrun Hargs).
    rewrite map_to_list_empty. reflexivity.
Qed.

Lemma broadcast_edges_witness :
  broadcast cfg_demo world_ok (command_update admin (utf8 "/broadcast")) ∅
  = (tt, ∅,
     [ReplyText (utf8 "❗ Usage: `/broadcast your_message`") (Some (utf8 "Markdown")) None
        false]).
Proof.
  refine (proj1 (broadcast_edges cfg_demo world_ok
                   (command_update admin (utf8 "/broadcast")) ∅ _) _).
  - reflexivity.
  - reflexivity.
Defined.

(** ** Arguments of the gated commands *)

Lemma startswith_prefix (s p : str) :
  startswith s p = true <-> exists k, s = p ++ k.
Proof.
  revert s. induction p as [|a p IH]; intros s.
  - destruct s; simpl; split; eauto.
  - destruct s as [|c s]; simpl.
    + split; [done|]. intros [k Hk]. discriminate Hk.
    + rewrite andb_true_iff, N.eqb_eq, IH. split.
      * intros [-> [k ->]]. eauto.
      * intros [k [= -> ->]]. eauto.
Qed.

Lemma startswith_app (s p k : str) :
  startswith s p = true -> startswith (s ++ k) p = true.
Proof.
  rewrite !startswith_prefix. intros [k' ->]. exists (k' ++ k).
  by rewrite app_assoc.
Qed.

(** X18.  [/explain] from an allowed user with nothing, or whitespace
    only, after the command word is answered with the usage text and no
    completion call is made: without arguments the handler falls back
    to the message text, which then begins with the command word.  The
    test is on the literal prefix: when the message text does not begin
    with it (the command word typed in another case), that text itself
    is sent to the completion call. *)
Theorem explain_blank_argument (cfg : Config) (w : World) (user : User)
    (cmd ws : str) (st : gmap Z bool) :
  st !! user_id user = Some true ->
  Forall (fun c => is_space c = false) cmd ->
  Forall (fun c => is_space c = true) ws ->
  (startswith cmd (utf8 "/explain") = true ->
   explain cfg w (command_update user (cmd ++ ws)) st
   = (tt, st,
      [SqlIsJoined (user_id user);
       ReplyText explain_usage Markdown None false]))
  /\ (cmd <> [] ->
      startswith (cmd ++ ws) (utf8 "/explain") = false ->
      exists rest,
        trace_of (explain cfg w (command_update user (cmd ++ ws)) st)
        = SqlIsJoined (user_id user)
          :: ChatCompletion EXPLAIN_MODEL explain_system
               (build_explain_prompt (cmd ++ ws))
          :: rest).
Proof.
  intros Hj Hcmd Hws.
  assert (Htext : explain_user_text (command_update user (cmd ++ ws))
                  = cmd ++ ws).
  { unfold explain_user_text. by rewrite command_args_blank. }
  split.
  - intros Hsw.
    rewrite explain_allowed by (simpl; by rewrite Hj).
    rewrite explain_body_usage; [done|].
    right. rewrite Htext. by apply startswith_app.
  - intros Hne Hsw.
    rewrite explain_allowed by (simpl; by rewrite Hj).
    rewrite explain_body_call.
    + rewrite Htext. unfold trace_of; cbn [snd effective_user command_update].
      eauto.
    + rewrite Htext. destruct cmd; [done|discriminate].
    + by rewrite Htext.
Qed.

Lemma explain_blank_argument_witness :
  explain cfg_demo world_ok
    (command_update alice (utf8 "/explain" ++ utf8 "  ")) (<[7 := true]> ∅)
  = (tt, <[7 := true]> ∅,
     [SqlIsJoined 7; ReplyText explain_usage Markdown None false]).
Proof.
  refine (proj1 (explain_blank_argument cfg_demo world_ok alice
                   (utf8 "/explain") (utf8 "  ") (<[7 := true]> ∅) _ _ _) _).
  - reflexivity.
  - vm_compute. repeat constructor.
  - vm_compute. repeat constructor.
  - reflexivity.
Defined.

(** X19.  [/prompt] from an allowed user reaches the completion call
    exactly when at least one word follows the command, and the prompt
    it sends is built from those words joined by single spaces. *)
Theorem prompt_calls_iff_argument (cfg : Config) (w : World) (user : User)
    (text : str) (st : gmap Z bool) :
  st !! user_id user = Some true ->
  (args (command_update user text) = []
   /\ prompt_refiner cfg w (command_update user text) st
      = (tt, st,
         [SqlIsJoined (user_id user);
          ReplyText prompt_usage Markdown None false]))
  \/ (args (command_update user text) <> []
      /\ exists rest,
           trace_of (prompt_refiner cfg w (command_update user text) st)
           = SqlIsJoined (user_id user)
             :: ChatCompletion PROMPT_MODEL prompt_system
                  (build_prompt_refiner
                     (py_join (utf8 " ") (args (command_update user text))))
             :: rest).
Proof.
  intros Hj.
  pose proof (command_args_clean user text) as Hclean.
  rewrite prompt_refiner_allowed by (simpl; by rewrite Hj).
  destruct (decide (args (command_update user text) = [])) as [He|Hne].
  - left. split; [done|].
    rewrite prompt_refiner_body_usage; [done|].
    unfold prompt_user_text. by rewrite He.
  - right. split; [done|].
    rewrite prompt_refiner_body_call.
    + unfold trace_of; cbn [snd]. unfold prompt_user_text. eauto.
    + unfold prompt_user_text. intros E. apply Hne.
      by apply py_join_empty.
Qed.

Lemma prompt_calls_iff_argument_witness :
  (args (command_update alice (utf8 "/prompt  a  b")) = []
   /\ prompt_refiner cfg_demo world_ok
        (command_update alice (utf8 "/prompt  a  b")) (<[7 := true]> ∅)
      = (tt, <[7 := true]> ∅,
         [SqlIsJoined (user_id alice);
          ReplyText prompt_usage Markdown None false]))
  \/ (args (command_update alice (utf8 "/prompt  a  b")) <> []
      /\ exists rest,
           trace_of (prompt_refiner cfg_demo world_ok
                       (command_update alice (utf8 "/prompt  a  b"))
                       (<[7 := true]> ∅))
           = SqlIsJoined (user_id alice)
             :: ChatCompletion PROMPT_MODEL prompt_system
                  (build_prompt_refiner
                     (py_join (utf8 " ")
                        (args (command_update alice (utf8 "/prompt  a  b")))))
             :: rest).
Proof. apply prompt_calls_iff_argument. reflexivity. Defined.

Lemma explain_same_text (cfg : Config) (w : World) (u1 u2 : Update)
    (st : gmap Z bool) :
  effective_user u1 = effective_user u2 ->
  explain_user_text u1 = explain_user_text u2 ->
  explain cfg w u1 st = explain cfg w u2 st.
Proof.
  intros Hu Ht. unfold explain, explain_body. by rewrite Hu, Ht.
Qed.

(** X20.  For an allowed or a denied user alike, [/explain] followed by
    words does exactly what a plain text message made of those words,
    single-spaced, does: the same store, the same completion call, the
    same reply and the same audit record. *)
Theorem explain_command_as_text (cfg : Config) (w : World) (user : User)
    (words : list str) (st : gmap Z bool) :
  words <> [] ->
  Forall (fun t => t <> [] /\ Forall (fun c => is_space c = false) t) words ->
  explain cfg w
    (command_update user (utf8 "/explain " ++ py_join (utf8 " ") words)) st
  = explain cfg w (text_update user (py_join (utf8 " ") words)) st.
Proof.
  intros Hne Hclean. apply explain_same_text; [done|].
  assert (Hargs : args (command_update user
                          (utf8 "/explain " ++ py_join (utf8 " ") words))
                  = words).
  { cbn [args command_update].
    replace (utf8 "/explain " ++ py_join (utf8 " ") words)
      with (py_join (utf8 " ") (utf8 "/explain" :: words)).
    - rewrite py_split_join; [done|].
      constructor; [|done]. split; [done|].
      vm_compute. repeat constructor.
    - destruct words as [|t rest]; [done|].
      change (py_join (utf8 " ") (utf8 "/explain" :: t :: rest))
        with (utf8 "/explain" ++ utf8 " " ++ py_join (utf8 " ") (t :: rest)).
      by rewrite app_assoc. }
  unfold explain_user_text. rewrite Hargs.
  cbn [args text_update message_text default].
  by destruct words.
Qed.

Lemma explain_command_as_text_witness :
  explain cfg_demo world_ok
    (command_update alice
       (utf8 "/explain " ++ py_join (utf8 " ") [utf8 "black"; utf8 "holes"]))
    (<[7 := true]> ∅)
  = explain cfg_demo world_ok
      (text_update alice (py_join (utf8 " ") [utf8 "black"; utf8 "holes"]))
      (<[7 := true]> ∅).
Proof.
  apply explain_command_as_text.
  - discriminate.
  - vm_compute. repeat constructor; discriminate.
Defined.

(** ** Stripping *)


Lemma lstrip_by_clean_head (p : N -> bool) (s : str) :
  (forall c k, s = c :: k -> p c = false) -> lstrip_by p s = s.
Proof.
  destruct s as [|c k]; [done|]. intros H. simpl.
  by rewrite (H c k eq_refl).
Qed.






(** ** The join link *)

(** X22.  The link of the join button is [https://t.me/] followed by
    the channel name without its at-signs at either end: for a channel
    configured as the name with or without a leading at-sign (the name
    itself holding none) the link is the same and ends in the bare
    name; the second button always carries the callback data
    [check_join]. *)
Theorem join_link_strips_at (cfg : Config) (name : str) :
  Forall (fun c => c <> 64%N) name ->
  REQUIRED_CHANNEL cfg = 64%N :: name \/ REQUIRED_CHANNEL cfg = name ->
  join_keyboard cfg
  = [ [UrlButton (utf8 "👉 Join Channel") (utf8 "https://t.me/" ++ name)];
      [CallbackButton (utf8 "✅ I've Joined") (utf8 "check_join")] ].
Proof.
  intros Hname Hch.
  set (p := fun c : N => bool_decide (c ∈ utf8 "@")).
  assert (Hp : Forall (fun c => p c = false) name).
  { eapply Forall_impl; [exact Hname|]. intros c Hc. unfold p.
    apply bool_decide_eq_false. change (utf8 "@") with [64%N].
    by intros ->%list_elem_of_singleton. }
  assert (Hclean : forall s, Forall (fun c => p c = false) s ->
                     lstrip_by p s = s).
  { intros s Hs. apply lstrip_by_clean_head. intros c k ->.
    by inversion Hs. }
  assert (Hname_strip : strip_by p name = name).
  { unfold strip_by. rewrite (Hclean name Hp).
    rewrite Hclean; [apply rev_involutive|].
    rewrite Forall_forall in *. intros c Hc%list_elem_of_In%in_rev.
    by apply Hp, list_elem_of_In. }
  assert (Hstrip : py_strip_chars (utf8 "@") (REQUIRED_CHANNEL cfg) = name).
  { unfold py_strip_chars. fold p. destruct Hch as [-> | ->].
    - unfold strip_by. cbn [lstrip_by].
      replace (p 64%N) with true by reflexivity.
      exact Hname_strip.
    - exact Hname_strip. }
  unfold join_keyboard. by rewrite Hstrip.
Qed.

Lemma join_link_strips_at_witness :
  join_keyboard cfg_demo
  = [ [UrlButton (utf8 "👉 Join Channel")
         (utf8 "https://t.me/" ++ utf8 "explainx")];
      [CallbackButton (utf8 "✅ I've Joined") (utf8 "check_join")] ].
Proof.
  apply join_link_strips_at.
  - vm_compute. repeat constructor; discriminate.
  - left. reflexivity.
Defined.

(** ** Configuration defaults *)

(** X23.  When the environment sets [REQUIRED_CHANNEL] and neither
    [LOG_CHANNEL] nor [ADMIN_ID], both numbers are 0.  Under that
    configuration no handled update sends an audit record, and
    [/broadcast] is refused to every user whose id is not 0. *)
Theorem load_config_defaults (env : gmap string (list N)) (ch : str) :
  env !! "REQUIRED_CHANNEL"%string = Some ch ->
  env !! "LOG_CHANNEL"%string = None ->
  env !! "ADMIN_ID"%string = None ->
  exists cfg,
    load_config env = Some cfg
    /\ REQUIRED_CHANNEL cfg = ch
    /\ LOG_CHANNEL cfg = 0
    /\ ADMIN_ID cfg = 0
    /\ (forall w r st,
          count_events is_log_send (trace_of (handle cfg w r st)) = 0%nat)
    /\ (forall w u st,
          user_id (effective_user u) <> 0 ->
          broadcast cfg w u st
          = (tt, st, [ReplyText unauthorized_text None None false])).
Proof.
  intros Hch Hlog Hadm.
  exists {| REQUIRED_CHANNEL := ch; LOG_CHANNEL := 0; ADMIN_ID := 0 |}.
  split.
  { unfold load_config, env_int. rewrite Hch, Hlog, Hadm. reflexivity. }
  split; [done|]. split; [done|]. split; [done|]. split.
  - intros w r st. apply count_events_none. by apply handle_silent.
  - intros w u st Hne. unfold broadcast. cbn [ADMIN_ID].
    apply Z.eqb_neq in Hne. by rewrite Hne.
Qed.

Lemma load_config_defaults_witness :
  exists cfg,
    load_config {[ "REQUIRED_CHANNEL"%string := utf8 "@explainx" ]} = Some cfg
    /\ REQUIRED_CHANNEL cfg = utf8 "@explainx"
    /\ LOG_CHANNEL cfg = 0
    /\ ADMIN_ID cfg = 0
    /\ (forall w r st,
          count_events is_log_send (trace_of (handle cfg w r st)) = 0%nat)
    /\ (forall w u st,
          user_id (effective_user u) <> 0 ->
          broadcast cfg w u st
          = (tt, st, [ReplyText unauthorized_text None None false])).
Proof.
  apply load_config_defaults.
  - reflexivity.
  - reflexivity.
  - reflexivity.
Defined.

(** The report of the broadcast to three users, one of whom has blocked
    the bot, character by character. *)
Example scenario_broadcast_report_text :
  last (trace_of (broadcast cfg_demo world_ok
                    (command_update admin (utf8 "/broadcast hi"))
                    (<[2 := false]> (<[3 := true]> (<[7 := true]> ∅)))))
  = Some (ReplyText
            (utf8 "📢 Broadcast complete!" ++ [10%N] ++ utf8 "✅ Sent: 2"
             ++ [10%N] ++ utf8 "⚠️ Failed: 1")
            None None false).
Proof. vm_compute. reflexivity. Qed.

(** An allowed user sends [/explain hello], the completion returns, and
    the platform refuses the Markdown reply: the refusal is caught, the
    user gets the error text and the audit record carries it. *)
Example scenario_markdown_refused :
  trace_of (explain cfg_demo world_markdown_refused
              (command_update alice (utf8 "/explain hello")) (<[7 := true]> ∅))
  = [SqlIsJoined 7;
     ChatCompletion EXPLAIN_MODEL explain_system
       (build_explain_prompt (utf8 "hello"));
     ReplyText (utf8 "T") Markdown None false;
     ReplyText (utf8 "⚠️ Error: Can't parse entities") None None false;
     SendMessage (-1001)
       (log_msg (Some alice) (utf8 "explain") (utf8 "hello")
          (utf8 "⚠️ Error: Can't parse entities"))
       HTML].
Proof. vm_compute. reflexivity. Qed.

(** The audit record of [/explain hello] answered by [T], character by
    character. *)
Example log_msg_text :
  log_msg (Some alice) (utf8 "explain") (utf8 "hello") (utf8 "T")
  = utf8 "👤 User: alice" ++ [10%N] ++ utf8 "🆔 ID: `7`" ++ [10%N]
    ++ utf8 "💬 Command: `explain`" ++ [10%N] ++ utf8 "📥 Input:" ++ [10%N]
    ++ utf8 "hello" ++ [10%N; 10%N] ++ utf8 "📤 Output:" ++ [10%N]
    ++ utf8 "T".
Proof. vm_compute. reflexivity. Qed.

(** What the user is shown, character by character: the join prompt on
    denial, the two usage texts, the refusal of a broadcast, and the two
    answers of the recheck. *)
Example scenario_texts :
  trace_of (explain cfg_demo world_ok
              (command_update alice (utf8 "/explain hello")) ∅)
  = [SqlIsJoined 7;
     ReplyText (utf8 "⚠️ Please join our channel to use the bot.") None
       (Some [ [UrlButton (utf8 "👉 Join Channel")
                  (utf8 "https://t.me/explainx")];
               [CallbackButton (utf8 "✅ I've Joined") (utf8 "check_join")] ])
       false]
  /\ trace_of (explain cfg_demo world_ok
                 (command_update alice (utf8 "/explain")) (<[7 := true]> ∅))
     = [SqlIsJoined 7;
        ReplyText (utf8 "❗ Usage: `/explain your_text_here`")
          (Some (utf8 "Markdown")) None false]
  /\ trace_of (prompt_refiner cfg_demo world_ok
                 (command_update alice (utf8 "/prompt")) (<[7 := true]> ∅))
     = [SqlIsJoined 7;
        ReplyText (utf8 "❗ Usage: `/prompt your_idea_here`")
          (Some (utf8 "Markdown")) None false]
  /\ trace_of (broadcast cfg_demo world_ok
                 (command_update alice (utf8 "/broadcast hi")) ∅)
     = [ReplyText (utf8 "❌ You are not authorized.") None None false]
  /\ trace_of (check_join cfg_demo world_ok alice (<[7 := false]> ∅))
     = [GetChatMember (utf8 "@explainx") 7; SqlUpdateJoin 7;
        EditText (utf8 "✅ Thanks for joining! Type /start again 🎉")]
  /\ trace_of (check_join cfg_demo world_out alice (<[7 := false]> ∅))
     = [GetChatMember (utf8 "@explainx") 7;
        AnswerQuery (utf8 "❌ You haven't joined yet!") true].
Proof. vm_compute. repeat split. Qed.
